(** * data_preprocess: batch embedding of a JSON document collection

    A shallow embedding of [src/data_preprocess.cpp]: the [BGEEncoder]
    class (constructor, destructor, [encode], [get_embedding_dim]) and the
    driver [main].

    The program is a thin layer over two external libraries, none of which
    is part of the sources:
    - nlohmann::json (parsing, element access, conversions, serialisation);
    - llama.cpp (model loading, tokenizer, forward pass, embeddings).
    The JSON value model and the accessors the program calls are written
    out below after the library's behaviour; the parser, the serialiser and
    the whole inference engine stay abstract (the classes [JsonText] and
    [Llama]). *)

From Stdlib Require Import ZArith String List Lia.
From Stdlib Require Import Floats.PrimFloat Floats.SpecFloat Floats.FloatOps.
From stdpp Require Import base option list gmap strings pretty.

Set Warnings "-register-all".
#[local] Open Scope string_scope.
#[local] Open Scope Z_scope.
#[local] Open Scope list_scope.

(* ===================================================================== *)
(** ** Results of fallible operations *)
(* ===================================================================== *)

(** A C++ expression either yields a value, throws an exception derived
  from [std::exception] (carrying its [what()] message), or has no
  defined behaviour. *)
Inductive outcome (A : Type) : Type :=
| Ok (a : A)
| Throw (what : string)
| Undefined.
Arguments Ok {A} a.
Arguments Throw {A} what.
Arguments Undefined {A}.

(* ===================================================================== *)
(** ** Machine integers *)
(* ===================================================================== *)

Module Int.

Definition INT_MIN : Z := - 2 ^ 31.
Definition INT_MAX : Z := 2 ^ 31 - 1.

Definition in_range (z : Z) : bool := (INT_MIN <=? z) && (z <=? INT_MAX).

(** Conversion of an integer to [int]: the value modulo 2^32, read as
    a signed two's-complement number. *)
Definition wrap (z : Z) : Z := (z + 2 ^ 31) mod 2 ^ 32 - 2 ^ 31.

(** Unary minus on [int].  The negation of [INT_MIN] does not fit [int]:
    the overflow has no defined behaviour. *)
Definition neg (z : Z) : outcome Z :=
  if z =? INT_MIN then Undefined else Ok (- z).

End Int.

(* ===================================================================== *)
(** ** JSON values (nlohmann::json) *)
(* ===================================================================== *)

(** A [float] of the program is carried by the [double] that represents it
  exactly; JSON stores floating-point numbers as [double]. *)
Inductive json : Type :=
| JNull
| JBoolean (b : bool)
| JInteger (z : Z)            (* number_integer: std::int64_t *)
| JUnsigned (z : Z)           (* number_unsigned: std::uint64_t *)
| JFloat (d : float)          (* number_float: double *)
| JString (s : string)
| JArray (l : list json)
| JObject (m : gmap string json).

Module Json.

Definition type_name (j : json) : string :=
  match j with
  | JNull => "null"
  | JBoolean _ => "boolean"
  | JInteger _ | JUnsigned _ | JFloat _ => "number"
  | JString _ => "string"
  | JArray _ => "array"
  | JObject _ => "object"
  end.

(** [j.size()]: 0 for null, the number of elements of an array or of
    members of an object, 1 for every scalar. *)
Definition size (j : json) : nat :=
  match j with
  | JNull => 0%nat
  | JArray l => length l
  | JObject m => base.size m
  | _ => 1%nat
  end.

(** [j[i]] on a non-const value.  A null value would first turn into an
    array and an array would be padded with nulls up to [i]; any other
    type throws type_error 305. *)
Definition at_index (j : json) (i : nat) : outcome json :=
  match j with
  | JNull => Ok JNull
  | JArray l => Ok (default JNull (l !! i))
  | _ => Throw ("[json.exception.type_error.305] cannot use operator[] with a numeric argument with " +:+ type_name j)
  end.

(** [j["key"]] on a non-const value.  A null value first turns into an
    object, and a key that is absent is inserted with a null value, which
    is what the call then returns; any type other than object throws
    type_error 305. *)
Definition at_key (j : json) (key : string) : outcome json :=
  match j with
  | JNull => Ok JNull
  | JObject m => Ok (default JNull (m !! key))
  | _ => Throw ("[json.exception.type_error.305] cannot use operator[] with a string argument with " +:+ type_name j)
  end.

(** [j.get<std::string>()]: strings only, type_error 302 otherwise. *)
Definition get_string (j : json) : outcome string :=
  match j with
  | JString s => Ok s
  | _ => Throw ("[json.exception.type_error.302] type must be string, but is " +:+ type_name j)
  end.

(** Truncation of a [double] towards zero; [None] for infinities and
    NaN. *)
Definition truncate (d : float) : option Z :=
  match Prim2SF d with
  | S754_zero _ => Some 0
  | S754_finite s m e =>
      let v := if 0 <=? e then Z.pos m * 2 ^ e else Z.pos m / 2 ^ (- e) in
      Some (if s then - v else v)
  | S754_infinity _ | S754_nan => None
  end.

(** [j.get<int>()].  The library converts every number and also a
    boolean with [static_cast<int>], without a range check: integers are
    narrowed modulo 2^32; a floating-point number is truncated, and the
    cast is undefined when the truncated value does not fit.  Every other
    type throws type_error 302. *)
Definition get_int (j : json) : outcome Z :=
  match j with
  | JInteger z | JUnsigned z => Ok (Int.wrap z)
  | JBoolean b => Ok (if b then 1 else 0)
  | JFloat d =>
      match truncate d with
      | Some z => if Int.in_range z then Ok z else Undefined
      | None => Undefined
      end
  | _ => Throw ("[json.exception.type_error.302] type must be number, but is " +:+ type_name j)
  end.

(** [entry[key] = v] on a value that is null or an object. *)
Definition set_key (j : json) (key : string) (v : json) : outcome json :=
  match j with
  | JNull => Ok (JObject {[ key := v ]})
  | JObject m => Ok (JObject (<[ key := v ]> m))
  | _ => Throw ("[json.exception.type_error.305] cannot use operator[] with a string argument with " +:+ type_name j)
  end.

(** [j.push_back(v)] on a value that is null or an array. *)
Definition push_back (j : json) (v : json) : outcome json :=
  match j with
  | JNull => Ok (JArray [v])
  | JArray l => Ok (JArray (l ++ [v]))
  | _ => Throw ("[json.exception.type_error.308] cannot use push_back() with " +:+ type_name j)
  end.

(** The number an integer-typed value stands for. *)
Definition integer_value (j : json) : option Z :=
  match j with
  | JInteger z | JUnsigned z => Some z
  | _ => None
  end.

(** Read-only member lookup, for stating properties of records. *)
Definition member (j : json) (key : string) : option json :=
  match j with
  | JObject m => m !! key
  | _ => None
  end.

End Json.

(* ===================================================================== *)
(** ** The external libraries, as interfaces *)
(* ===================================================================== *)

(** Text to JSON value and back: [in_file >> j] and [j.dump(indent)].
    A parse error is an exception carrying its message. *)
Class JsonText : Type := {
  json_parse : string -> outcome json;
  json_dump : json -> Z -> string;
}.

(** The fields of [llama_context_params] the program sets; every other
    field keeps the library's default. *)
Record llama_context_params : Type := {
  n_ctx : Z;
  n_batch : Z;
  embeddings : bool;
  no_perf : bool;
}.

Definition llama_token : Type := Z.

(** [llama_batch_get_one(tokens, n_tokens)]: one sequence, the tokens
    alone. *)
Record llama_batch : Type := {
  batch_n_tokens : Z;
  batch_token : list llama_token;
}.

Definition llama_batch_get_one (tokens : list llama_token) (n_tokens : Z) : llama_batch :=
  {| batch_n_tokens := n_tokens; batch_token := tokens |}.

(** The inference engine.  Handles are abstract; a null pointer result is
    [None].  [llama_tokenize vocab text text_len buffer n_tokens_max
    add_special parse_special] returns the library's [int32_t] result and
    the tokens it stored ([buffer] tells whether a buffer was passed);
    [llama_encode] returns its status and the context it leaves behind;
    [llama_get_embeddings_seq] returns the floats its result points to. *)
Class Llama : Type := {
  llama_model : Type;
  llama_context : Type;
  llama_vocab : Type;
  llama_load_model_from_file : string -> option llama_model;
  llama_model_get_vocab : llama_model -> llama_vocab;
  llama_n_embd : llama_model -> Z;
  llama_init_from_model : llama_model -> llama_context_params -> option llama_context;
  llama_model_has_encoder : llama_model -> bool;
  llama_tokenize :
    llama_vocab -> string -> Z -> bool -> Z -> bool -> bool -> Z * list llama_token;
  llama_encode : llama_context -> llama_batch -> Z * llama_context;
  llama_get_embeddings_seq : llama_context -> Z -> option (list float);
}.

(** The calls made into the engine, in order (a ghost record of the run);
    the two calls that hand out a handle are recorded with their result. *)
Inductive llama_call `{Llama} : Type :=
| Call_backend_load_all
| Call_load_model (path : string) (loaded : option llama_model)
| Call_init_from_model (model : llama_model) (params : llama_context_params)
    (created : option llama_context)
| Call_model_free (model : llama_model)
| Call_free
| Call_tokenize (text : string) (text_len : Z) (buffer : bool) (n_tokens_max : Z)
    (add_special parse_special : bool)
| Call_encode (batch : llama_batch)
| Call_get_embeddings_seq (seq_id : Z).

(* ===================================================================== *)
(** ** The process state and the monad of the program *)
(* ===================================================================== *)

Section Program.
Context `{JT : JsonText} `{LL : Llama}.

(** Files by path with their contents, the paths that cannot be opened
    for writing, the lines written to the two standard streams and the
    engine calls made so far. *)
Record world : Type := World {
  fs : gmap string string;
  unwritable : gset string;
  stdout : list string;
  stderr : list string;
  llama_log : list llama_call;
}.

Inductive result (A : Type) : Type :=
| Returns (a : A) (w : world)
| Throws (what : string) (w : world)
| Undef.
#[global] Arguments Returns {A} a w.
#[global] Arguments Throws {A} what w.
#[global] Arguments Undef {A}.

Definition M (A : Type) : Type := world -> result A.

(** The state a computation ends in, when it ends in one. *)
Definition final_world {A} (r : result A) : option world :=
  match r with
  | Returns _ w | Throws _ w => Some w
  | Undef => None
  end.

Definition ret {A} (a : A) : M A := fun w => Returns a w.

Definition bind {A B} (m : M A) (k : A -> M B) : M B :=
  fun w =>
    match m w with
    | Returns a w' => k a w'
    | Throws what w' => Throws what w'
    | Undef => Undef
    end.

Definition throw {A} (what : string) : M A := fun w => Throws what w.

Definition lift {A} (o : outcome A) : M A :=
  fun w =>
    match o with
    | Ok a => Returns a w
    | Throw what => Throws what w
    | Undefined => Undef
    end.

(** [try { body } catch (const std::exception& e) { handler e.what() }] *)
Definition try_catch {A} (body : M A) (handler : string -> M A) : M A :=
  fun w =>
    match body w with
    | Throws what w' => handler what w'
    | r => r
    end.

(** A scope owning an object with a destructor: the destructor runs when
    the scope is left, by return or by an exception. *)
Definition scoped {A} (body : M A) (destructor : M unit) : M A :=
  fun w =>
    match body w with
    | Returns a w' => bind destructor (fun _ => ret a) w'
    | Throws what w' => bind destructor (fun _ => throw what) w'
    | Undef => Undef
    end.

Definition print_out (line : string) : M unit :=
  fun w => Returns tt (World (fs w) (unwritable w) (stdout w ++ [line]) (stderr w) (llama_log w)).

Definition print_err (line : string) : M unit :=
  fun w => Returns tt (World (fs w) (unwritable w) (stdout w) (stderr w ++ [line]) (llama_log w)).

Definition call (c : llama_call) : M unit :=
  fun w => Returns tt (World (fs w) (unwritable w) (stdout w) (stderr w) (llama_log w ++ [c])).

(** [std::ifstream in(path)]: the content when the file can be opened. *)
Definition open_in (path : string) : M (option string) :=
  fun w => Returns (fs w !! path) w.

(** [std::ofstream out(path)]: opening truncates the file. *)
Definition open_out (path : string) : M bool :=
  fun w =>
    if decide (path ∈ unwritable w) then Returns false w
    else Returns true (World (<[path := EmptyString]> (fs w)) (unwritable w) (stdout w) (stderr w) (llama_log w)).

(** [out << text] on an open stream. *)
Definition write_out (path : string) (text : string) : M unit :=
  fun w =>
    Returns tt (World (<[path := default EmptyString (fs w !! path) +:+ text]> (fs w))
                      (unwritable w) (stdout w) (stderr w) (llama_log w)).

End Program.

Notation "x <- c1 ;; c2" := (bind c1 (fun x => c2))
(at level 100, c1 at next level, right associativity).
Notation "c1 ;;; c2" := (bind c1 (fun _ => c2))
(at level 100, right associativity).

(* ===================================================================== *)
(** ** class BGEEncoder *)
(* ===================================================================== *)

Section Encoder.
Context `{LL : Llama}.

Record BGEEncoder : Type := {
  model : llama_model;
  ctx : llama_context;
  vocab : llama_vocab;
  n_embd : Z;
}.

Definition show_int (z : Z) : string := pretty z.
Definition show_size (n : nat) : string := pretty n.

(** The context parameters the constructor asks for. *)
Definition ctx_params : llama_context_params :=
  {| n_ctx := 512; n_batch := 512; embeddings := true; no_perf := false |}.

(** [BGEEncoder::BGEEncoder(model_path)] *)
Definition BGEEncoder_new (model_path : string) : M BGEEncoder :=
  call Call_backend_load_all ;;;
  call (Call_load_model model_path (llama_load_model_from_file model_path)) ;;;
  match llama_load_model_from_file model_path with
  | None => throw ("Failed to load model from: " +:+ model_path)
  | Some model =>
      let vocab := llama_model_get_vocab model in
      let n_embd := llama_n_embd model in
      print_out ("Model loaded. Embedding dimension: " +:+ show_int n_embd) ;;;
      (if negb (n_embd =? 768)
       then print_err ("Warning: Expected embedding dimension 768, got " +:+ show_int n_embd)
       else ret tt) ;;;
      call (Call_init_from_model model ctx_params (llama_init_from_model model ctx_params)) ;;;
      match llama_init_from_model model ctx_params with
      | None =>
          call (Call_model_free model) ;;;
          throw "Failed to create context"
      | Some ctx =>
          (if negb (llama_model_has_encoder model)
           then print_err "Warning: Model does not appear to be an encoder model"
           else ret tt) ;;;
          ret {| model := model; ctx := ctx; vocab := vocab; n_embd := n_embd |}
      end
  end.

(** [BGEEncoder::~BGEEncoder()]; both handles of a constructed encoder
    are non-null. *)
Definition BGEEncoder_delete (enc : BGEEncoder) : M unit :=
  call Call_free ;;;
  call (Call_model_free (model enc)).

(** [text.size()] passed as the [int32_t text_len] argument. *)
Definition text_len (text : string) : Z := Int.wrap (Z.of_nat (String.length text)).

(** The buffer [tokens] after a tokenizer call stored [written] into a
    vector of [n] zero-initialised tokens. *)
Definition fill_buffer (n : nat) (written : list llama_token) : list llama_token :=
  take n (written ++ replicate (n - length written) 0).

(** [std::vector<float> embedding(embd, embd + n_embd)]: reads [n_embd]
    floats from the engine's buffer; a negative count or a read past the
    buffer has no defined behaviour. *)
Definition copy_floats (embd : list float) (n_embd : Z) : outcome (list float) :=
  if (0 <=? n_embd) && (n_embd <=? Z.of_nat (length embd))
  then Ok (take (Z.to_nat n_embd) embd)
  else Undefined.

(** [BGEEncoder::encode(text)]; returns the embedding and the encoder
    with the context as the engine left it. *)
Definition encode (enc : BGEEncoder) (text : string) : M (list float * BGEEncoder) :=
  call (Call_tokenize text (text_len text) false 0 true true) ;;;
  n_tokens <-
    lift (Int.neg
            (fst (llama_tokenize (vocab enc) text (text_len text) false 0 true true))) ;;
  if n_tokens <=? 0 then throw "Failed to tokenize text" else
  call (Call_tokenize text (text_len text) true n_tokens true true) ;;;
  let '(r, written) :=
    llama_tokenize (vocab enc) text (text_len text) true n_tokens true true in
  if r <? 0 then throw "Failed to tokenize text" else
  let tokens := fill_buffer (Z.to_nat n_tokens) written in
  let batch := llama_batch_get_one tokens (Z.of_nat (length tokens)) in
  call (Call_encode batch) ;;;
  let '(status, ctx') := llama_encode (ctx enc) batch in
  if negb (status =? 0) then throw "Failed to encode batch" else
  call (Call_get_embeddings_seq 0) ;;;
  match llama_get_embeddings_seq ctx' 0 with
  | None => throw "Failed to get embeddings"
  | Some embd =>
      embedding <- lift (copy_floats embd (n_embd enc)) ;;
      ret (embedding,
           {| model := model enc; ctx := ctx'; vocab := vocab enc; n_embd := n_embd enc |})
  end.

(** [BGEEncoder::get_embedding_dim()] *)
Definition get_embedding_dim (enc : BGEEncoder) : Z := n_embd enc.

End Encoder.

(* ===================================================================== *)
(** ** main *)
(* ===================================================================== *)

Section Main.
Context `{JT : JsonText} `{LL : Llama}.

Definition model_path : string := "bge-base-en-v1.5-f32.gguf".
Definition input_file : string := "documents.json".
Definition output_file : string := "preprocessed_documents.json".

Definition progress_line (i size : nat) : string :=
  "Processing document " +:+ show_size i +:+ "/" +:+ show_size size +:+ "...".

(** Lines 141-142: the two fields of a document. *)
Definition extract_fields (doc : json) : outcome (string * Z) :=
  match Json.at_key doc "text" with
  | Ok t =>
      match Json.get_string t with
      | Ok text =>
          match Json.at_key doc "id" with
          | Ok d =>
              match Json.get_int d with
              | Ok id => Ok (text, id)
              | Throw what => Throw what
              | Undefined => Undefined
              end
          | Throw what => Throw what
          | Undefined => Undefined
          end
      | Throw what => Throw what
      | Undefined => Undefined
      end
  | Throw what => Throw what
  | Undefined => Undefined
  end.

(** Lines 148-151: the output record, built key by key from null. *)
Definition make_entry (id : Z) (text : string) (embedding : list float) : outcome json :=
  match Json.set_key JNull "id" (JInteger id) with
  | Ok e1 =>
      match Json.set_key e1 "text" (JString text) with
      | Ok e2 => Json.set_key e2 "embedding" (JArray (map JFloat embedding))
      | Throw what => Throw what
      | Undefined => Undefined
      end
  | Throw what => Throw what
  | Undefined => Undefined
  end.

(** The body of the loop at index [i]: the new output array and the
    encoder after the call. *)
Definition process_document (input_data : json) (i : nat) (enc : BGEEncoder)
    (output_data : json) : M (json * BGEEncoder) :=
  doc <- lift (Json.at_index input_data i) ;;
  (if (i mod 100 =? 0)%nat
   then print_out (progress_line i (Json.size input_data))
   else ret tt) ;;;
  fields <- lift (extract_fields doc) ;;
  let '(text, id) := fields in
  r <- encode enc text ;;
  let '(embedding, enc') := r in
  entry <- lift (make_entry id text embedding) ;;
  output_data' <- lift (Json.push_back output_data entry) ;;
  ret (output_data', enc').

(** [for (size_t i = 0; i < input_data.size(); i++)], with [remaining]
    the number of iterations left; the size of [input_data] does not
    change in the loop. *)
Fixpoint process_documents (remaining : nat) (input_data : json) (i : nat)
    (enc : BGEEncoder) (output_data : json) : M json :=
  match remaining with
  | O => ret output_data
  | S remaining' =>
      r <- process_document input_data i enc output_data ;;
      let '(output_data', enc') := r in
      process_documents remaining' input_data (S i) enc' output_data'
  end.

(** The statements of the [try] block once the encoder exists. *)
Definition main_with_encoder (input_data : json) (encoder : BGEEncoder) : M Z :=
  output_data <- process_documents (Json.size input_data) input_data 0 encoder (JArray []) ;;
  print_out ("Writing results to " +:+ output_file +:+ "...") ;;;
  opened <- open_out output_file ;;
  if negb opened then
    print_err ("Error: Could not open " +:+ output_file +:+ " for writing") ;;;
    ret 1
  else
    write_out output_file (json_dump output_data 2) ;;;
    print_out ("Successfully processed " +:+ show_size (Json.size output_data) +:+ " documents") ;;;
    print_out ("Output saved to " +:+ output_file) ;;;
    ret 0.

Definition main_try : M Z :=
  print_out ("Loading documents from " +:+ input_file +:+ "...") ;;;
  in_file <- open_in input_file ;;
  match in_file with
  | None =>
      print_err ("Error: Could not open " +:+ input_file) ;;;
      ret 1
  | Some content =>
      input_data <- lift (json_parse content) ;;
      print_out ("Found " +:+ show_size (Json.size input_data) +:+ " documents") ;;;
      print_out ("Loading BGE model from " +:+ model_path +:+ "...") ;;;
      encoder <- BGEEncoder_new model_path ;;
      scoped (main_with_encoder input_data encoder) (BGEEncoder_delete encoder)
  end.

(** The function [main]: the exit code of the process. *)
Definition main : M Z :=
  try_catch main_try (fun what => print_err ("Error: " +:+ what) ;;; ret 1).

End Main.


(* ===================================================================== *)
(** ** Vocabulary of the properties *)
(* ===================================================================== *)

Section Vocabulary.
Context `{LL : Llama}.

(** The model handles loaded and not yet freed, counted from the calls. *)
Fixpoint models_held (log : list llama_call) : Z :=
  match log with
  | [] => 0
  | Call_load_model _ (Some _) :: log' => models_held log' + 1
  | Call_model_free _ :: log' => models_held log' - 1
  | _ :: log' => models_held log'
  end.

(** What a step leaves alone: the files and the standard error stream. *)
Definition same_files (w w' : world) : Prop :=
  fs w' = fs w /\ unwritable w' = unwritable w /\ stderr w' = stderr w.

(** The lines the constructor prints. *)
Definition model_loaded_line (n : Z) : string :=
  "Model loaded. Embedding dimension: " +:+ show_int n.

Definition dimension_warning (n : Z) : string :=
  "Warning: Expected embedding dimension 768, got " +:+ show_int n.

Definition encoder_warning (m : llama_model) : list string :=
  if negb (llama_model_has_encoder m)
  then ["Warning: Model does not appear to be an encoder model"] else [].

Definition construction_warnings (m : llama_model) : list string :=
  (if negb (llama_n_embd m =? 768) then [dimension_warning (llama_n_embd m)] else []) ++
  encoder_warning m.

(** What can be seen of a run from outside: its exit code and the content
    of the output file afterwards. *)
Definition exit_code_and_output (r : result Z) : option (Z * option string) :=
  match r with
  | Returns code w' => Some (code, fs w' !! output_file)
  | Throws _ _ | Undef => None
  end.

(** What a run printed on the standard output since the state [w]. *)
Definition printed (w w' : world) : list string := drop (length (stdout w)) (stdout w').

End Vocabulary.

(** The record [main] builds for a document. *)
Definition output_entry (id : Z) (text : string) (embedding : list float) : json :=
  JObject (<["embedding" := JArray (map JFloat embedding)]>
            (<["text" := JString text]> {["id" := JInteger id]})).

(** [entry] is the record built for [doc] with an embedding of [dim]
    floats. *)
Definition entry_for (dim : Z) (doc entry : json) : Prop :=
  exists text id embedding,
    extract_fields doc = Ok (text, id) /\
    entry = output_entry id text embedding /\
    Z.of_nat (length embedding) = dim.

(** The length of the [embedding] array of a record. *)
Definition embedding_length (entry : json) : option Z :=
  match Json.member entry "embedding" with
  | Some (JArray es) => Some (Z.of_nat (length es))
  | _ => None
  end.

(** The [id] of a document when it is an integer, and its [text] when it
    is a string. *)
Definition document_id (doc : json) : option Z :=
  match Json.member doc "id" with
  | Some j => Json.integer_value j
  | None => None
  end.

Definition document_text (doc : json) : option string :=
  match Json.member doc "text" with
  | Some (JString s) => Some s
  | _ => None
  end.

(** A document as the data model has it: an object whose [id] is an
    integer and whose [text] is a string. *)
Definition valid_document (doc : json) : bool :=
  bool_decide (is_Some (document_id doc)) && bool_decide (is_Some (document_text doc)).

(** ... whose [id] moreover fits the [int] the program reads it into. *)
Definition int_document (doc : json) : bool :=
  match document_id doc, document_text doc with
  | Some z, Some _ => Int.in_range z
  | _, _ => false
  end.

(** A document the program cannot read: [text] is absent or not a string,
    or [id] is absent or neither a number nor a boolean. *)
Definition unreadable_document (doc : json) : bool :=
  match document_text doc, Json.member doc "id" with
  | Some _, Some (JInteger _ | JUnsigned _ | JFloat _ | JBoolean _) => false
  | _, _ => true
  end.

(** A document that lacks one of the two keys. *)
Definition lacks_key (doc : json) : bool :=
  match Json.member doc "text", Json.member doc "id" with
  | Some _, Some _ => false
  | _, _ => true
  end.

Fixpoint starts_with (p s : string) : bool :=
  match p with
  | EmptyString => true
  | String a p' =>
      match s with
      | EmptyString => false
      | String b s' => Ascii.eqb a b && starts_with p' s'
      end
  end.

(** A line of the standard output that starts as the progress lines do. *)
Definition is_progress_line (line : string) : bool :=
  starts_with "Processing document " line.

(** The indices among [i, i + n) that are multiples of 100. *)
Definition progress_indices (i n : nat) : list nat :=
  List.filter (fun k => (k mod 100 =? 0)%nat) (seq i n).

Definition progress_at (size i : nat) : list string :=
  if (i mod 100 =? 0)%nat then [progress_line i size] else [].

Definition progress_lines (size i n : nat) : list string :=
  map (fun k => progress_line k size) (progress_indices i n).

(** The state after the loop printed its progress line for index [i]. *)
Definition after_progress `{Llama} (w : world) (size i : nat) : world :=
  World (fs w) (unwritable w) (stdout w ++ progress_at size i) (stderr w) (llama_log w).

(** The other lines of the standard output. *)
Definition opening_lines (size : nat) : list string :=
  ["Loading documents from " +:+ input_file +:+ "...";
   "Found " +:+ show_size size +:+ " documents";
   "Loading BGE model from " +:+ model_path +:+ "..."].

Definition writing_line : string := "Writing results to " +:+ output_file +:+ "...".

Definition success_lines (n : nat) : list string :=
  ["Successfully processed " +:+ show_size n +:+ " documents";
   "Output saved to " +:+ output_file].

Definition cannot_write_line : string :=
  "Error: Could not open " +:+ output_file +:+ " for writing".

(** The line of the top-level handler, and the line for an input file
    that cannot be opened. *)
Definition error_line (what : string) : string := "Error: " +:+ what.

Definition cannot_read_line : string := "Error: Could not open " +:+ input_file.

Definition is_error_line (line : string) : bool := starts_with "Error: " line.

(** The keys of a record. *)
Definition record_keys (j : json) : gset string :=
  match j with
  | JObject m => dom m
  | _ => ∅
  end.

Section CallVocabulary.
Context `{LL : Llama}.

(** The context handles created and not yet freed, counted from the
    calls. *)
Fixpoint contexts_held (log : list llama_call) : Z :=
  match log with
  | [] => 0
  | Call_init_from_model _ _ (Some _) :: log' => contexts_held log' + 1
  | Call_free :: log' => contexts_held log' - 1
  | _ :: log' => contexts_held log'
  end.

(** The calls [encode] makes: they hand out and release no handle. *)
Definition is_inference_call (c : llama_call) : bool :=
  match c with
  | Call_tokenize _ _ _ _ _ _ | Call_encode _ | Call_get_embeddings_seq _ => true
  | _ => false
  end.

Definition is_forward_pass (c : llama_call) : bool :=
  match c with
  | Call_encode _ => true
  | _ => false
  end.

(** The number of forward passes among some calls. *)
Definition forward_passes (calls : list llama_call) : nat :=
  length (List.filter is_forward_pass calls).

(** The engine calls a run made since the state [w], and the lines it
    wrote to the standard error stream. *)
Definition new_calls (w w' : world) : list llama_call :=
  drop (length (llama_log w)) (llama_log w').

Definition new_errors (w w' : world) : list string :=
  drop (length (stderr w)) (stderr w').

(** The calls of the constructor when it succeeds, and of the
    destructor. *)
Definition construction_calls (path : string) (m : llama_model) (c : llama_context)
    : list llama_call :=
  [Call_backend_load_all; Call_load_model path (Some m);
   Call_init_from_model m ctx_params (Some c)].

Definition destruction_calls (m : llama_model) : list llama_call :=
  [Call_free; Call_model_free m].

(** The state [w] after the engine calls [cs]. *)
Definition logged (w : world) (cs : list llama_call) : world :=
  World (fs w) (unwritable w) (stdout w) (stderr w) (llama_log w ++ cs).

(** The result of the tokenizer's dry run on [text], and the result and
    the tokens stored by its second run with a buffer of [n] tokens. *)
Definition dry_run (enc : BGEEncoder) (text : string) : Z :=
  fst (llama_tokenize (vocab enc) text (text_len text) false 0 true true).

Definition second_run (enc : BGEEncoder) (text : string) (n : Z) : Z * list llama_token :=
  llama_tokenize (vocab enc) text (text_len text) true n true true.

(** The batch [encode] submits after a second run with a buffer of [n]
    tokens. *)
Definition submitted_batch (enc : BGEEncoder) (text : string) (n : Z) : llama_batch :=
  llama_batch_get_one (fill_buffer (Z.to_nat n) (snd (second_run enc text n))) n.

(** An engine whose forward pass reports a status and leaves embeddings
    that depend on the batch alone, not on the state the context was in. *)
Definition context_independent : Prop :=
  forall (c1 c2 : llama_context) (batch : llama_batch),
    fst (llama_encode c1 batch) = fst (llama_encode c2 batch) /\
    llama_get_embeddings_seq (snd (llama_encode c1 batch)) 0 =
      llama_get_embeddings_seq (snd (llama_encode c2 batch)) 0.

(** The dry run of the tokenizer and its second run with a buffer of [n]
    tokens, as [encode] calls them. *)
Definition probe_call (text : string) : llama_call :=
  Call_tokenize text (text_len text) false 0 true true.

Definition tokenize_call (text : string) (n : Z) : llama_call :=
  Call_tokenize text (text_len text) true n true true.

End CallVocabulary.

Section Endings.
Context `{JT : JsonText} `{LL : Llama}.

(** The calls of a computation: appended to the log, all of them inference
    calls. *)
Definition only_inference (w w' : world) (cs : list llama_call) : Prop :=
  llama_log w' = llama_log w ++ cs /\ forallb is_inference_call cs = true.

(** The calls of a constructor that could not create the context. *)
Definition abandoned_construction_calls (path : string) (m : llama_model)
    : list llama_call :=
  [Call_backend_load_all; Call_load_model path (Some m);
   Call_init_from_model m ctx_params None; Call_model_free m].

(** The warning about the dimension, which precedes the creation of the
    context. *)
Definition early_warnings (m : llama_model) : list string :=
  if negb (llama_n_embd m =? 768) then [dimension_warning (llama_n_embd m)] else [].

(** The ways a run of [main] from the state [w] ends, with the exit code
    and the final state: the input file cannot be opened; it cannot be
    parsed; the model cannot be loaded; the context cannot be created; an
    exception leaves the loop; the output file cannot be opened; the
    output is written. *)
Inductive run_ending (w : world) : Z -> world -> Prop :=
| Input_unopened w' :
    fs w !! input_file = None ->
    fs w' = fs w ->
    llama_log w' = llama_log w ->
    stderr w' = stderr w ++ [cannot_read_line] ->
    run_ending w 1 w'
| Input_unparsed content what w' :
    fs w !! input_file = Some content ->
    json_parse content = Throw what ->
    fs w' = fs w ->
    llama_log w' = llama_log w ->
    stderr w' = stderr w ++ [error_line what] ->
    run_ending w 1 w'
| Model_unloaded content input w' :
    fs w !! input_file = Some content ->
    json_parse content = Ok input ->
    llama_load_model_from_file model_path = None ->
    fs w' = fs w ->
    llama_log w' = llama_log w ++ [Call_backend_load_all; Call_load_model model_path None] ->
    stderr w' = stderr w ++ [error_line ("Failed to load model from: " +:+ model_path)] ->
    run_ending w 1 w'
| Context_uncreated content input m w' :
    fs w !! input_file = Some content ->
    json_parse content = Ok input ->
    llama_load_model_from_file model_path = Some m ->
    llama_init_from_model m ctx_params = None ->
    fs w' = fs w ->
    llama_log w' = llama_log w ++ abandoned_construction_calls model_path m ->
    stderr w' = stderr w ++ early_warnings m ++ [error_line "Failed to create context"] ->
    run_ending w 1 w'
| Document_failed content input m c cs what w' :
    fs w !! input_file = Some content ->
    json_parse content = Ok input ->
    llama_load_model_from_file model_path = Some m ->
    llama_init_from_model m ctx_params = Some c ->
    forallb is_inference_call cs = true ->
    fs w' = fs w ->
    llama_log w' =
      llama_log w ++ construction_calls model_path m c ++ cs ++ destruction_calls m ->
    stderr w' = stderr w ++ construction_warnings m ++ [error_line what] ->
    run_ending w 1 w'
| Output_unopened content input m c cs w' :
    fs w !! input_file = Some content ->
    json_parse content = Ok input ->
    llama_load_model_from_file model_path = Some m ->
    llama_init_from_model m ctx_params = Some c ->
    forallb is_inference_call cs = true ->
    forward_passes cs = Json.size input ->
    output_file ∈ unwritable w ->
    fs w' = fs w ->
    llama_log w' =
      llama_log w ++ construction_calls model_path m c ++ cs ++ destruction_calls m ->
    stderr w' = stderr w ++ construction_warnings m ++ [cannot_write_line] ->
    run_ending w 1 w'
| Completed content input m c cs entries w' :
    fs w !! input_file = Some content ->
    json_parse content = Ok input ->
    llama_load_model_from_file model_path = Some m ->
    llama_init_from_model m ctx_params = Some c ->
    forallb is_inference_call cs = true ->
    forward_passes cs = Json.size input ->
    output_file ∉ unwritable w ->
    length entries = Json.size input ->
    fs w' = <[output_file := json_dump (JArray entries) 2]> (fs w) ->
    llama_log w' =
      llama_log w ++ construction_calls model_path m c ++ cs ++ destruction_calls m ->
    stderr w' = stderr w ++ construction_warnings m ->
    run_ending w 0 w'.

End Endings.

(* ===================================================================== *)
(** ** A small concrete instance of the interfaces *)
(* ===================================================================== *)

Module Demo.

(** A writer that shows the [id] and the [text] of the records of an
    array. *)
Definition show_record (entry : json) : string :=
  match document_id entry, document_text entry with
  | Some z, Some s => pretty z +:+ ":" +:+ s
  | _, _ => "?"
  end.

Definition show_records (j : json) : string :=
  match j with
  | JArray l => String.concat ";" (map show_record l)
  | _ => Json.type_name j
  end.

(** A reader that finds the value [j] in every file. *)
Definition fixed_json (j : json) : JsonText := {|
  json_parse := fun _ => Ok j;
  json_dump := fun j' _ => show_records j';
|}.

(** Tokens: the bytes of the text between the markers 101 and 102. *)
Definition tokens_of (text : string) : list llama_token :=
  101 :: map (fun a => Z.of_nat (Ascii.nat_of_ascii a)) (list_ascii_of_string text) ++ [102].

(** An engine whose models have dimension [dim], whose contexts can be
    created or not, and whose embedding of a batch repeats one of two
    values, by the parity of the number of tokens of the batch. *)
Definition engine (dim : Z) (context_ok : bool) : Llama := {|
  llama_model := Z;
  llama_context := Z;
  llama_vocab := unit;
  llama_load_model_from_file := fun _ => Some dim;
  llama_model_get_vocab := fun _ => tt;
  llama_n_embd := fun m => m;
  llama_init_from_model := fun _ _ => if context_ok then Some 0 else None;
  llama_model_has_encoder := fun _ => true;
  llama_tokenize := fun _ text _ _ n_tokens_max _ _ =>
    let tokens := tokens_of text in
    if n_tokens_max <? Z.of_nat (length tokens)
    then (- Z.of_nat (length tokens), [])
    else (Z.of_nat (length tokens), tokens);
  llama_encode := fun _ batch => (0, batch_n_tokens batch);
  llama_get_embeddings_seq := fun c _ =>
    Some (replicate (Z.to_nat dim) (if Z.even c then 0.5%float else 0.25%float));
|}.

Definition document (id : json) (text : string) : json :=
  JObject (<["id" := id]> {["text" := JString text]}).

(** A process with the input file in place and nothing printed yet. *)
Definition start `{Llama} (read_only : gset string) : world :=
  World {[ input_file := "documents" ]} read_only [] [] [].

(** Inputs: two well-formed documents; a document with an [id] beyond
    [int]; a document whose [id] is a boolean and one whose [id] is a
    fraction; a document without [text] after a well-formed one. *)
Definition two_documents : list json :=
  [document (JUnsigned 1) "ab"; document (JInteger (-7)) "c"].

Definition wide_document : json := document (JUnsigned 2147483648) "a".

Definition boolean_document : json := document (JBoolean true) "a".

Definition fractional_document : json := document (JFloat 1.5%float) "a".

Definition truncated_documents : list json :=
  [document (JUnsigned 1) "a"; JObject {["id" := JUnsigned 2]}].

(** A reader that rejects every file. *)
Definition rejecting_json (what : string) : JsonText := {|
  json_parse := fun _ => Throw what;
  json_dump := fun j' _ => show_records j';
|}.

(** An engine like [engine 4 true], except that the model file cannot be
    loaded ([loads = false]) or that the forward pass reports [status]. *)
Definition faulty_engine (loads : bool) (status : Z) : Llama := {|
  llama_model := Z;
  llama_context := Z;
  llama_vocab := unit;
  llama_load_model_from_file := fun _ => if loads then Some 4 else None;
  llama_model_get_vocab := fun _ => tt;
  llama_n_embd := fun m => m;
  llama_init_from_model := fun _ _ => Some 0;
  llama_model_has_encoder := fun _ => true;
  llama_tokenize := fun _ text _ _ n_tokens_max _ _ =>
    let tokens := tokens_of text in
    if n_tokens_max <? Z.of_nat (length tokens)
    then (- Z.of_nat (length tokens), [])
    else (Z.of_nat (length tokens), tokens);
  llama_encode := fun _ batch => (status, batch_n_tokens batch);
  llama_get_embeddings_seq := fun c _ => Some (replicate 4 0.5%float);
|}.

(** An engine like [engine 4 true], except that its tokenizer stores
    nothing and always answers that three tokens are required, whatever
    buffer it is offered. *)
Definition refusing_tokenizer : Llama := {|
  llama_model := Z;
  llama_context := Z;
  llama_vocab := unit;
  llama_load_model_from_file := fun _ => Some 4;
  llama_model_get_vocab := fun _ => tt;
  llama_n_embd := fun m => m;
  llama_init_from_model := fun _ _ => Some 0;
  llama_model_has_encoder := fun _ => true;
  llama_tokenize := fun _ _ _ _ _ _ _ => (-3, []);
  llama_encode := fun _ batch => (0, batch_n_tokens batch);
  llama_get_embeddings_seq := fun c _ => Some (replicate 4 0.5%float);
|}.

(** An engine like [engine 4 true], except that its context counts the
    forward passes made in it and the embeddings it exposes depend on the
    parity of that count. *)
Definition counting_engine : Llama := {|
  llama_model := Z;
  llama_context := Z;
  llama_vocab := unit;
  llama_load_model_from_file := fun _ => Some 4;
  llama_model_get_vocab := fun _ => tt;
  llama_n_embd := fun m => m;
  llama_init_from_model := fun _ _ => Some 0;
  llama_model_has_encoder := fun _ => true;
  llama_tokenize := fun _ text _ _ n_tokens_max _ _ =>
    let tokens := tokens_of text in
    if n_tokens_max <? Z.of_nat (length tokens)
    then (- Z.of_nat (length tokens), [])
    else (Z.of_nat (length tokens), tokens);
  llama_encode := fun c _ => (0, c + 1);
  llama_get_embeddings_seq := fun c _ =>
    Some (replicate 4 (if Z.even c then 0.5%float else 0.25%float));
|}.

(** A process without the input file. *)
Definition bare `{Llama} : world := World ∅ ∅ [] [] [].

End Demo.

(** Case analysis on every [match] of a hypothesis that describes a run. *)
Ltac crack H :=
  repeat (cbn beta iota in H;
    match type of H with
    | context [match ?x with _ => _ end] => destruct x eqn:?
    end); try discriminate H.

(* ===================================================================== *)
(** ** Machine integers: facts *)
(* ===================================================================== *)

Lemma wrap_in_range (z : Z) : Int.in_range z = true -> Int.wrap z = z.
Proof.
  unfold Int.in_range, Int.INT_MIN, Int.INT_MAX, Int.wrap.
  intros H. apply andb_prop in H as [Hlo Hhi].
  apply Z.leb_le in Hlo, Hhi.
  rewrite Z.mod_small by lia. lia.
Qed.

Lemma wrap_is_int (z : Z) : Int.in_range (Int.wrap z) = true.
Proof.
  unfold Int.in_range, Int.INT_MIN, Int.INT_MAX, Int.wrap.
  pose proof (Z.mod_pos_bound (z + 2 ^ 31) (2 ^ 32) ltac:(lia)) as Hb.
  apply andb_true_intro. split; apply Z.leb_le; lia.
Qed.

Lemma wrap_out_of_range (z : Z) : Int.in_range z = false -> Int.wrap z <> z.
Proof.
  intros Hout Heq. pose proof (wrap_is_int z) as Hin.
  rewrite Heq in Hin. congruence.
Qed.

(* ===================================================================== *)
(** ** What a step leaves alone *)
(* ===================================================================== *)

Section MonadFacts.
Context `{LL : Llama}.

Lemma same_files_refl w : same_files w w.
Proof. now repeat split. Qed.

Lemma same_files_trans w1 w2 w3 : same_files w1 w2 -> same_files w2 w3 -> same_files w1 w3.
Proof. unfold same_files. intros (-> & -> & ->) (-> & -> & ->). now repeat split. Qed.

End MonadFacts.

#[global] Hint Resolve same_files_refl : core.

(* ===================================================================== *)
(** ** BGEEncoder::encode *)
(* ===================================================================== *)

Section EncodeFacts.
Context `{LL : Llama}.

Lemma copy_floats_length embd n e :
  copy_floats embd n = Ok e -> Z.of_nat (length e) = n.
Proof.
  unfold copy_floats. destruct (_ && _) eqn:Hb; [|discriminate].
  intros [= <-]. apply andb_prop in Hb as [H1 H2]. apply Z.leb_le in H1, H2.
  rewrite length_take. lia.
Qed.

Lemma fill_buffer_length n (written : list llama_token) :
  length (fill_buffer n written) = n.
Proof.
  unfold fill_buffer. rewrite length_take, length_app, length_replicate. lia.
Qed.

(** [encode], step by step. *)
Lemma encode_steps enc text w :
  encode enc text w =
    match Int.neg (dry_run enc text) with
    | Ok n =>
        if n <=? 0
        then Throws "Failed to tokenize text" (logged w [probe_call text])
        else if fst (second_run enc text n) <? 0
        then Throws "Failed to tokenize text"
                    (logged w [probe_call text; tokenize_call text n])
        else
          let batch := submitted_batch enc text n in
          let calls := [probe_call text; tokenize_call text n; Call_encode batch] in
          if negb (fst (llama_encode (ctx enc) batch) =? 0)
          then Throws "Failed to encode batch" (logged w calls)
          else
            let ctx' := snd (llama_encode (ctx enc) batch) in
            match llama_get_embeddings_seq ctx' 0 with
            | None =>
                Throws "Failed to get embeddings"
                       (logged w (calls ++ [Call_get_embeddings_seq 0]))
            | Some embd =>
                match copy_floats embd (n_embd enc) with
                | Ok e =>
                    Returns (e, {| model := model enc; ctx := ctx'; vocab := vocab enc;
                                   n_embd := n_embd enc |})
                            (logged w (calls ++ [Call_get_embeddings_seq 0]))
                | Throw what => Throws what (logged w (calls ++ [Call_get_embeddings_seq 0]))
                | Undefined => Undef
                end
            end
    | Throw what => Throws what (logged w [probe_call text])
    | Undefined => Undef
    end.
Proof.
  unfold encode, dry_run, submitted_batch, second_run, probe_call, tokenize_call, logged.
  unfold bind at 1. unfold call at 1. unfold bind at 1.
  destruct (Int.neg _) as [n | what |]; cbn [lift]; [| reflexivity | reflexivity].
  destruct (n <=? 0) eqn:Hn; [reflexivity|]. apply Z.leb_gt in Hn.
  unfold bind at 1. unfold call at 1.
  destruct (llama_tokenize (vocab enc) text (text_len text) true n true true)
    as [r written]. cbn [fst snd].
  destruct (r <? 0); [cbn; now rewrite <- app_assoc|].
  rewrite fill_buffer_length, Z2Nat.id by lia.
  unfold bind at 1. unfold call at 1.
  destruct (llama_encode (ctx enc) _) as [status ctx']. cbn [fst snd].
  destruct (negb (status =? 0)); [cbn; now rewrite <- !app_assoc|].
  unfold bind at 1. unfold call at 1.
  destruct (llama_get_embeddings_seq ctx' 0) as [embd|];
    [|cbn; now rewrite <- !app_assoc].
  unfold bind, lift, ret.
  destruct (copy_floats embd (n_embd enc)); cbn; rewrite <- ?app_assoc; reflexivity.
Qed.

Lemma copy_floats_never_throws embd n what : copy_floats embd n <> Throw what.
Proof. unfold copy_floats. now destruct (_ && _). Qed.

Lemma neg_never_throws z what : Int.neg z <> Throw what.
Proof. unfold Int.neg. now destruct (z =? Int.INT_MIN). Qed.

Lemma encode_returns enc text w e enc' w' :
  encode enc text w = Returns (e, enc') w' ->
  Z.of_nat (length e) = n_embd enc /\ n_embd enc' = n_embd enc /\
  model enc' = model enc /\ vocab enc' = vocab enc /\
  same_files w w' /\ stdout w' = stdout w.
Proof.
  rewrite encode_steps. intros H. cbv zeta in H. crack H. injection H as <- <- <-.
  unfold same_files. cbn. eauto 10 using copy_floats_length.
Qed.

Lemma encode_throws enc text w what w' :
  encode enc text w = Throws what w' -> same_files w w' /\ stdout w' = stdout w.
Proof.
  rewrite encode_steps. intros H. cbv zeta in H.
  crack H; injection H as <- <-; unfold same_files; cbn; auto.
Qed.

(** C4 (amended).  The token count is the negation of the result of the
    tokenizer's dry run (no buffer, capacity 0), the library reporting the
    required size as a negative result; when that result is [INT_MIN] the
    negation overflows and nothing is defined.  Otherwise [encode] throws
    the tokenization error exactly when the count is zero or negative or
    the second tokenizer call returns a negative result: in the first case
    after the dry run alone, in the second after a second call made with a
    buffer of exactly that many tokens and the special (beginning/end of
    sequence) tokens requested.  When neither holds, the batch submitted to
    the forward pass is that buffer, of exactly that many tokens. *)
Theorem encode_tokenization_error enc text w :
  match Int.neg (dry_run enc text) with
  | Ok n_tokens =>
      n_tokens = - dry_run enc text /\
      ((exists w', encode enc text w = Throws "Failed to tokenize text" w') <->
       n_tokens <= 0 \/ fst (second_run enc text n_tokens) < 0) /\
      (n_tokens <= 0 ->
       encode enc text w =
         Throws "Failed to tokenize text" (logged w [probe_call text])) /\
      (0 < n_tokens -> fst (second_run enc text n_tokens) < 0 ->
       encode enc text w =
         Throws "Failed to tokenize text"
                (logged w [probe_call text; tokenize_call text n_tokens])) /\
      (0 < n_tokens -> 0 <= fst (second_run enc text n_tokens) ->
       batch_n_tokens (submitted_batch enc text n_tokens) = n_tokens /\
       Z.of_nat (length (batch_token (submitted_batch enc text n_tokens))) = n_tokens /\
       forall w', final_world (encode enc text w) = Some w' ->
         exists rest,
           llama_log w' =
             llama_log w ++
               probe_call text :: tokenize_call text n_tokens
               :: Call_encode (submitted_batch enc text n_tokens) :: rest)
  | Throw _ => False
  | Undefined => dry_run enc text = Int.INT_MIN /\ encode enc text w = Undef
  end.
Proof.
  rewrite encode_steps. cbv zeta.
  destruct (Int.neg (dry_run enc text)) as [n | what |] eqn:Hneg.
  2:{ now apply neg_never_throws in Hneg. }
  2:{ split; [|reflexivity]. unfold Int.neg in Hneg.
      destruct (dry_run enc text =? Int.INT_MIN) eqn:Hmin; [|discriminate].
      now apply Z.eqb_eq. }
  split.
  { unfold Int.neg in Hneg. destruct (_ =? _); [discriminate | congruence]. }
  destruct (n <=? 0) eqn:Hn.
  { apply Z.leb_le in Hn. repeat split; eauto; lia. }
  apply Z.leb_gt in Hn.
  destruct (fst (second_run enc text n) <? 0) eqn:Hsecond.
  { apply Z.ltb_lt in Hsecond. repeat split; eauto; lia. }
  apply Z.ltb_ge in Hsecond.
  split; [|split; [lia | split; [lia|]]].
  - split; [|lia]. intros (w' & H). exfalso.
    destruct (negb _); [discriminate|].
    destruct (llama_get_embeddings_seq _ 0) as [embd|]; [|discriminate].
    destruct (copy_floats embd (n_embd enc)) as [e | what |] eqn:Hcopy; try discriminate.
    now apply copy_floats_never_throws in Hcopy.
  - intros _ _. split; [reflexivity|].
    split; [unfold submitted_batch; cbn; rewrite fill_buffer_length; lia|].
    intros w' H.
    destruct (negb _); [injection H as <-; cbn; eauto|].
    destruct (llama_get_embeddings_seq _ 0) as [embd|]; [|injection H as <-; cbn; eauto].
    destruct (copy_floats embd (n_embd enc)); [| |discriminate];
      injection H as <-; cbn; eauto.
Qed.

Lemma encode_value enc text w e enc' w' :
  encode enc text w = Returns (e, enc') w' ->
  exists n embd,
    Int.neg (dry_run enc text) = Ok n /\
    fst (llama_encode (ctx enc) (submitted_batch enc text n)) = 0 /\
    llama_get_embeddings_seq (snd (llama_encode (ctx enc) (submitted_batch enc text n))) 0
      = Some embd /\
    copy_floats embd (n_embd enc) = Ok e.
Proof.
  rewrite encode_steps. cbv zeta. intros H.
  destruct (Int.neg (dry_run enc text)) as [n | |]; try discriminate.
  destruct (n <=? 0); [discriminate|].
  destruct (fst (second_run enc text n) <? 0); [discriminate|].
  destruct (fst (llama_encode (ctx enc) (submitted_batch enc text n)) =? 0) eqn:Hstatus;
    [|discriminate]. cbn [negb] in H.
  destruct (llama_get_embeddings_seq _ 0) as [embd|] eqn:Hembd; [|discriminate].
  destruct (copy_floats embd (n_embd enc)) as [e' | |] eqn:Hcopy; try discriminate.
  injection H as <- _ _. exists n, embd. apply Z.eqb_eq in Hstatus. auto.
Qed.

(** Two encoders over the same vocabulary and dimension, in whatever state
    their contexts are, embed a text alike when the engine's forward pass
    does not depend on that state. *)
Lemma encode_agrees enc enc' text w w' e e' enc1 enc1' w1 w1' :
  context_independent ->
  vocab enc' = vocab enc -> n_embd enc' = n_embd enc ->
  encode enc text w = Returns (e, enc1) w1 ->
  encode enc' text w' = Returns (e', enc1') w1' ->
  e = e'.
Proof.
  intros Hengine Hvocab Hdim H H'.
  apply encode_value in H as (n & embd & Hn & _ & Hembd & Hcopy).
  apply encode_value in H' as (n' & embd' & Hn' & _ & Hembd' & Hcopy').
  assert (Hdry : dry_run enc' text = dry_run enc text)
    by (unfold dry_run; now rewrite Hvocab).
  rewrite Hdry, Hn in Hn'. injection Hn' as <-.
  assert (Hbatch : submitted_batch enc' text n = submitted_batch enc text n)
    by (unfold submitted_batch, second_run; now rewrite Hvocab).
  rewrite Hbatch in Hembd'.
  destruct (Hengine (ctx enc) (ctx enc') (submitted_batch enc text n)) as (_ & Hsame).
  rewrite Hsame, Hembd' in Hembd. injection Hembd as <-.
  rewrite Hdim, Hcopy in Hcopy'. now injection Hcopy' as <-.
Qed.

(** C9 (amended).  When the status of the engine's forward pass and the
    embeddings it exposes for a batch do not depend on the state the
    context was in, two successive calls of [encode] on the same encoder
    with the same text return the same embedding, although the first call
    has changed the context the second one runs in. *)
Theorem repeated_encode_agrees enc text w e1 enc1 w1 e2 enc2 w2 :
  context_independent ->
  encode enc text w = Returns (e1, enc1) w1 ->
  encode enc1 text w1 = Returns (e2, enc2) w2 ->
  e1 = e2.
Proof.
  intros Hengine H1 H2.
  destruct (encode_returns enc text w e1 enc1 w1 H1) as (_ & Hdim & _ & Hvocab & _).
  exact (encode_agrees enc enc1 text w w1 e1 e2 enc1 enc2 w1 w2
           Hengine Hvocab Hdim H1 H2).
Qed.

End EncodeFacts.

(* ===================================================================== *)
(** ** The constructor *)
(* ===================================================================== *)

Section ConstructorFacts.
Context `{LL : Llama}.

Lemma models_held_app (l1 l2 : list llama_call) :
  models_held (l1 ++ l2) = models_held l1 + models_held l2.
Proof.
  induction l1 as [|c l1 IH]; cbn; [lia|].
  destruct c as [ | ? [?|] | | | | | | ]; cbn; lia.
Qed.

(** C8.  When the model loads and the context cannot be created, the
    constructor throws, and before it does it frees the model it loaded:
    the calls it made end with [llama_model_free] on that model, and as
    many model handles are held afterwards as before. *)
Theorem failed_context_releases_model path m w :
  llama_load_model_from_file path = Some m ->
  llama_init_from_model m ctx_params = None ->
  exists w',
    BGEEncoder_new path w = Throws "Failed to create context" w' /\
    llama_log w' =
      llama_log w ++
        [Call_backend_load_all; Call_load_model path (Some m);
         Call_init_from_model m ctx_params None; Call_model_free m] /\
    models_held (llama_log w') = models_held (llama_log w).
Proof.
  intros Hload Hinit. unfold BGEEncoder_new.
  rewrite Hload. cbn zeta. rewrite Hinit.
  unfold bind, call, throw, ret, print_out, print_err.
  destruct (negb (llama_n_embd m =? 768)); cbn;
    (eexists; split; [reflexivity|]; cbn; rewrite <- !app_assoc; cbn;
     split; [reflexivity|]; rewrite models_held_app; cbn; lia).
Qed.

Lemma constructor_cases path w :
  match BGEEncoder_new path w with
  | Returns enc w' =>
      exists m c,
        llama_load_model_from_file path = Some m /\
        llama_init_from_model m ctx_params = Some c /\
        enc = {| model := m; ctx := c; vocab := llama_model_get_vocab m;
                 n_embd := llama_n_embd m |} /\
        fs w' = fs w /\ unwritable w' = unwritable w /\
        stdout w' = stdout w ++ [model_loaded_line (llama_n_embd m)] /\
        stderr w' = stderr w ++
          construction_warnings m
  | Throws what w' =>
      fs w' = fs w /\ unwritable w' = unwritable w /\
      ((llama_load_model_from_file path = None /\
        what = "Failed to load model from: " +:+ path /\ stdout w' = stdout w) \/
       exists m, llama_load_model_from_file path = Some m /\
                 llama_init_from_model m ctx_params = None /\
                 what = "Failed to create context" /\
                 stdout w' = stdout w ++ [model_loaded_line (llama_n_embd m)])
  | Undef => False
  end.
Proof.
  unfold BGEEncoder_new.
  destruct (llama_load_model_from_file path) as [m|] eqn:Hload.
  - cbn zeta.
    destruct (llama_init_from_model m ctx_params) as [c|] eqn:Hinit;
      unfold bind, call, throw, ret, print_out, print_err, construction_warnings,
        encoder_warning, dimension_warning, model_loaded_line;
      destruct (negb (llama_n_embd m =? 768)) eqn:Hdim;
      destruct (negb (llama_model_has_encoder m)) eqn:Henc; cbn;
      try (exists m, c; rewrite Hdim, Henc, <- ?app_assoc; cbn; rewrite ?app_nil_r; auto 10);
      try (split; [reflexivity|]; split; [reflexivity|]; right; exists m; auto).
  - unfold bind, call, throw. cbn. auto 6.
Qed.
End ConstructorFacts.

(* ===================================================================== *)
(** ** The loop over the documents *)
(* ===================================================================== *)

Section LoopFacts.
Context `{LL : Llama}.

Lemma make_entry_eq id text embedding :
  make_entry id text embedding = Ok (output_entry id text embedding).
Proof. reflexivity. Qed.

Lemma progress_lines_S size i n :
  progress_lines size i (S n) = progress_at size i ++ progress_lines size (S i) n.
Proof.
  unfold progress_lines, progress_indices, progress_at. cbn [seq List.filter].
  destruct (i mod 100 =? 0)%nat; reflexivity.
Qed.

Lemma process_document_spec docs i doc enc acc w :
  docs !! i = Some doc ->
  match process_document (JArray docs) i enc (JArray acc) w with
  | Returns (out, enc') w' =>
      exists entry,
        out = JArray (acc ++ [entry]) /\ entry_for (n_embd enc) doc entry /\
        n_embd enc' = n_embd enc /\
        same_files w w' /\ stdout w' = stdout w ++ progress_at (length docs) i
  | Throws what w' =>
      same_files w w' /\ stdout w' = stdout w ++ progress_at (length docs) i
  | Undef => True
  end.
Proof.
  intros Hdoc. unfold process_document, progress_at.
  cbn [Json.at_index Json.size]. rewrite Hdoc.
  change (default JNull (Some doc)) with doc.
  unfold bind at 1. cbn [lift].
  set (w1 := World (fs w) (unwritable w)
                   (stdout w ++ (if (i mod 100 =? 0)%nat
                                 then [progress_line i (length docs)] else []))
                   (stderr w) (llama_log w)).
  assert (Hprint :
    (if (i mod 100 =? 0)%nat then print_out (progress_line i (length docs)) else ret tt) w
      = Returns tt w1).
  { unfold w1. destruct (i mod 100 =? 0)%nat; cbn; [reflexivity|].
    rewrite app_nil_r. now destruct w. }
  unfold bind at 1. rewrite Hprint.
  unfold bind at 1.
  destruct (extract_fields doc) as [[text id] | what |] eqn:Hfields; cbn [lift];
    [| now split | exact I].
  unfold bind at 1.
  destruct (encode enc text w1) as [[e enc'] w2 | what w2 |] eqn:Henc; [| | exact I].
  - apply encode_returns in Henc as (Hlen & Hdim & _ & _ & Hfiles & Hout).
    rewrite make_entry_eq. unfold bind, lift, ret. cbn [Json.push_back].
    exists (output_entry id text e). repeat split; try apply Hfiles; auto.
    exists text, id, e. auto.
  - apply encode_throws in Henc as (Hfiles & Hout). split; [apply Hfiles | exact Hout].
Qed.

Lemma progress_lines_0 size i : progress_lines size i 0 = [].
Proof. reflexivity. Qed.

Lemma process_documents_spec docs n :
  forall i enc acc w,
  (i + n <= length docs)%nat ->
  match process_documents n (JArray docs) i enc (JArray acc) w with
  | Returns out w' =>
      exists entries,
        out = JArray (acc ++ entries) /\
        Forall2 (entry_for (n_embd enc)) (take n (drop i docs)) entries /\
        same_files w w' /\
        stdout w' = stdout w ++ progress_lines (length docs) i n
  | Throws what w' =>
      same_files w w' /\
      exists n', (n' < n)%nat /\
        stdout w' = stdout w ++ progress_lines (length docs) i (S n')
  | Undef => True
  end.
Proof.
  induction n as [|n IH]; intros i enc acc w Hn.
  - cbn. exists []. rewrite !app_nil_r. repeat split; auto.
  - destruct (lookup_lt_is_Some_2 docs i ltac:(lia)) as [doc Hdoc].
    pose proof (process_document_spec docs i doc enc acc w Hdoc) as Hstep.
    cbn [process_documents]. unfold bind at 1.
    destruct (process_document (JArray docs) i enc (JArray acc) w)
      as [[out enc'] w1 | what w1 |]; [| | exact I].
    + destruct Hstep as (entry & -> & Hentry & Hdim & Hfiles & Hout).
      specialize (IH (S i) enc' (acc ++ [entry]) w1 ltac:(lia)).
      destruct (process_documents n (JArray docs) (S i) enc' (JArray (acc ++ [entry])) w1)
        as [out' w2 | what w2 |]; [| | exact I].
      * destruct IH as (entries & -> & Hall & Hfiles' & Hout').
        exists (entry :: entries). rewrite <- app_assoc. split; [reflexivity|].
        split; [| split; [eapply same_files_trans; eassumption|]].
        -- rewrite (drop_S _ _ _ Hdoc). cbn [take]. constructor; [assumption|].
           rewrite <- Hdim. exact Hall.
        -- rewrite Hout', Hout, progress_lines_S, app_assoc. reflexivity.
      * destruct IH as (Hfiles' & n' & Hlt & Hout').
        split; [eapply same_files_trans; eassumption|].
        exists (S n'). split; [lia|].
        rewrite Hout', Hout, (progress_lines_S _ i), app_assoc. reflexivity.
    + destruct Hstep as (Hfiles & Hout). split; [assumption|].
      exists 0%nat. split; [lia|].
      rewrite progress_lines_S, progress_lines_0, app_nil_r. exact Hout.
Qed.

End LoopFacts.

(* ===================================================================== *)
(** ** The whole run *)
(* ===================================================================== *)

Section MainFacts.
Context `{JT : JsonText} `{LL : Llama}.

Lemma main_with_encoder_spec docs enc w :
  match main_with_encoder (JArray docs) enc w with
  | Returns code w' =>
      exists entries,
        Forall2 (entry_for (n_embd enc)) docs entries /\
        unwritable w' = unwritable w /\
        ((code = 0 /\ (output_file ∉ unwritable w) /\
          fs w' = <[output_file := json_dump (JArray entries) 2]> (fs w) /\
          stderr w' = stderr w /\
          stdout w' = stdout w ++ progress_lines (length docs) 0 (length docs)
                        ++ writing_line :: success_lines (length entries))
         \/
         (code = 1 /\ (output_file ∈ unwritable w) /\
          fs w' = fs w /\
          stderr w' = stderr w ++ [cannot_write_line] /\
          stdout w' = stdout w ++ progress_lines (length docs) 0 (length docs)
                        ++ [writing_line]))
  | Throws what w' =>
      same_files w w' /\
      exists n', (n' < length docs)%nat /\
        stdout w' = stdout w ++ progress_lines (length docs) 0 (S n')
  | Undef => True
  end.
Proof.
  unfold main_with_encoder. cbn [Json.size].
  pose proof (process_documents_spec docs (length docs) 0%nat enc [] w ltac:(lia)) as Hloop.
  unfold bind at 1.
  destruct (process_documents (length docs) (JArray docs) 0 enc (JArray []) w)
    as [out w1 | what w1 |]; [| exact Hloop | exact I].
  destruct Hloop as (entries & -> & Hall & (Hfs & Hun & Herr) & Hout).
  rewrite drop_0, firstn_all in Hall. cbn [app].
  unfold bind, print_out, open_out, print_err, write_out, ret. cbn.
  rewrite Hun.
  destruct (decide (output_file ∈ unwritable w)) as [Hro | Hrw]; cbn.
  - exists entries. split; [assumption|]. split; [reflexivity|]. right.
    rewrite Hfs, Herr, Hout, <- app_assoc. auto.
  - exists entries. split; [assumption|]. split; [reflexivity|]. left.
    rewrite lookup_insert_eq. cbn. rewrite insert_insert_eq.
    rewrite Hfs, Herr, Hout, <- !app_assoc. auto.
Qed.

Lemma printed_app w w' lines : stdout w' = stdout w ++ lines -> printed w w' = lines.
Proof. unfold printed. intros ->. apply drop_app_length. Qed.

Lemma progress_lines_are_progress size i n :
  List.filter is_progress_line (progress_lines size i n) = progress_lines size i n.
Proof.
  unfold progress_lines. induction (progress_indices i n) as [|k l IH]; [reflexivity|].
  cbn [map List.filter].
  replace (is_progress_line (progress_line k size)) with true by reflexivity.
  now rewrite IH.
Qed.

Lemma opening_lines_not_progress size :
  List.filter is_progress_line (opening_lines size) = [].
Proof. reflexivity. Qed.

Lemma model_loaded_line_not_progress n :
  List.filter is_progress_line [model_loaded_line n] = [].
Proof. reflexivity. Qed.

Lemma writing_line_not_progress :
  List.filter is_progress_line [writing_line] = [].
Proof. reflexivity. Qed.

Ltac drop_other_lines :=
  rewrite ?List.filter_app, ?progress_lines_are_progress, ?opening_lines_not_progress,
    ?model_loaded_line_not_progress, ?writing_line_not_progress, ?app_nil_r;
  cbn [app].

Lemma main_try_eq w content input_data :
  fs w !! input_file = Some content ->
  json_parse content = Ok input_data ->
  main_try w =
    bind (BGEEncoder_new model_path)
         (fun encoder =>
            scoped (main_with_encoder input_data encoder) (BGEEncoder_delete encoder))
         (World (fs w) (unwritable w) (stdout w ++ opening_lines (Json.size input_data))
                (stderr w) (llama_log w)).
Proof.
  intros Hin Hparse. unfold main_try.
  unfold bind at 1. unfold print_out at 1.
  unfold bind at 1. unfold open_in at 1. cbn [fs]. rewrite Hin.
  unfold bind at 1. rewrite Hparse. cbn [lift].
  unfold bind at 1. unfold print_out at 1.
  unfold bind at 1. unfold print_out at 1.
  cbn [fs unwritable stdout stderr llama_log]. rewrite <- !app_assoc. reflexivity.
Qed.

Lemma main_spec w content docs :
  fs w !! input_file = Some content ->
  json_parse content = Ok (JArray docs) ->
  match main w with
  | Returns code w' =>
      (code = 0 /\
       exists m c entries,
         llama_load_model_from_file model_path = Some m /\
         llama_init_from_model m ctx_params = Some c /\
         (output_file ∉ unwritable w) /\
         Forall2 (entry_for (llama_n_embd m)) docs entries /\
         fs w' = <[output_file := json_dump (JArray entries) 2]> (fs w) /\
         stderr w' = stderr w ++ construction_warnings m /\
         printed w w' =
           opening_lines (length docs) ++ [model_loaded_line (llama_n_embd m)] ++
           progress_lines (length docs) 0 (length docs) ++
           writing_line :: success_lines (length entries))
      \/
      (code = 1 /\ fs w' = fs w /\
       exists reached,
         (reached <= length docs)%nat /\
         List.filter is_progress_line (printed w w') =
           progress_lines (length docs) 0 reached)
  | Throws _ _ => False
  | Undef => True
  end.
Proof.
  intros Hin Hparse. unfold main, try_catch.
  rewrite (main_try_eq w content (JArray docs) Hin Hparse). cbn [Json.size].
  set (w0 := World _ _ _ _ _).
  pose proof (constructor_cases model_path w0) as Hnew.
  unfold bind at 1.
  destruct (BGEEncoder_new model_path w0) as [enc w1 | what w1 |]; [| | contradiction].
  - destruct Hnew as (m & c & Hload & Hinit & -> & Hfs & Hun & Hout & Herr).
    pose proof (main_with_encoder_spec docs
      {| model := m; ctx := c; vocab := llama_model_get_vocab m; n_embd := llama_n_embd m |}
      w1) as Hrun.
    unfold scoped.
    destruct (main_with_encoder _ _ w1) as [code w2 | what w2 |]; [| | exact I].
    + destruct Hrun as (entries & Hall & Hun2 & Hcase).
      unfold bind, BGEEncoder_delete, call, ret. cbn.
      destruct Hcase as [(-> & Hrw & Hfs2 & Herr2 & Hout2) | (-> & Hro & Hfs2 & Herr2 & Hout2)].
      * left. split; [reflexivity|]. exists m, c, entries.
        rewrite Hun in Hrw. rewrite Hfs in Hfs2.
        repeat split; auto.
        -- rewrite Herr2, Herr. reflexivity.
        -- apply printed_app. cbn [stdout]. rewrite Hout2, Hout.
           unfold w0. cbn [stdout]. rewrite <- !app_assoc. reflexivity.
      * right. split; [reflexivity|]. split; [cbn; rewrite Hfs2, Hfs; reflexivity|].
        exists (length docs). split; [lia|].
        erewrite printed_app
          by (cbn [stdout]; rewrite Hout2, Hout; unfold w0; cbn [stdout];
              rewrite <- !app_assoc; reflexivity).
        drop_other_lines. reflexivity.
    + destruct Hrun as ((Hfs2 & Hun2 & Herr2) & n' & Hlt & Hout2).
      unfold bind, BGEEncoder_delete, call, throw, print_err, ret. cbn.
      right. split; [reflexivity|]. split; [rewrite Hfs2, Hfs; reflexivity|].
      exists (S n'). split; [lia|].
      erewrite printed_app
        by (rewrite Hout2, Hout; unfold w0; cbn [stdout];
            rewrite <- !app_assoc; reflexivity).
      drop_other_lines. reflexivity.
  - destruct Hnew as (Hfs & Hun & Hwhy).
    unfold bind, print_err, ret. cbn.
    right. split; [reflexivity|]. split; [exact Hfs|].
    exists 0%nat. split; [lia|]. cbn [stdout].
    destruct Hwhy as [(_ & _ & Hout) | (m & _ & _ & _ & Hout)];
      erewrite printed_app
        by (rewrite Hout; unfold w0; cbn [stdout]; rewrite <- ?app_assoc; reflexivity);
      drop_other_lines; reflexivity.
Qed.
End MainFacts.

(* ===================================================================== *)
(** ** Documents and records *)
(* ===================================================================== *)

Lemma output_entry_id id text e : document_id (output_entry id text e) = Some id.
Proof. reflexivity. Qed.

Lemma output_entry_text id text e : document_text (output_entry id text e) = Some text.
Proof. reflexivity. Qed.

Lemma output_entry_embedding id text e :
  embedding_length (output_entry id text e) = Some (Z.of_nat (length e)).
Proof.
  unfold embedding_length, output_entry. cbn [Json.member].
  rewrite lookup_insert_eq. now rewrite length_map.
Qed.

Lemma extract_fields_of_document doc z text :
  document_id doc = Some z -> document_text doc = Some text ->
  extract_fields doc = Ok (text, Int.wrap z).
Proof.
  unfold document_id, document_text, extract_fields.
  destruct doc as [| | | | | | |m]; cbn; try discriminate.
  destruct (m !! "text") as [[| | | | |s| |]|]; cbn; try discriminate.
  destruct (m !! "id") as [[| | | | | | |]|]; cbn; try discriminate;
    now intros [= ->] [= ->].
Qed.

Lemma extract_fields_ok doc text id :
  extract_fields doc = Ok (text, id) ->
  document_text doc = Some text /\
  unreadable_document doc = false /\
  forall z, document_id doc = Some z -> id = Int.wrap z.
Proof.
  unfold unreadable_document, document_id, document_text, extract_fields.
  destruct doc as [| | | | | | |m]; cbn; try discriminate.
  destruct (m !! "text") as [[| | | | |s| |]|]; cbn; try discriminate.
  destruct (m !! "id") as [[|b|z|z|d| | |]|]; cbn; try discriminate; intros H.
  - injection H as <- <-. repeat split; auto. discriminate.
  - injection H as <- <-. repeat split; auto. now intros ? [= ->].
  - injection H as <- <-. repeat split; auto. now intros ? [= ->].
  - destruct (Json.truncate d) as [t|]; [|discriminate].
    destruct (Int.in_range t); [|discriminate].
    injection H as <- <-. repeat split; auto. discriminate.
Qed.

Lemma lacks_key_unreadable doc : lacks_key doc = true -> unreadable_document doc = true.
Proof.
  unfold lacks_key, unreadable_document, document_text.
  destruct (Json.member doc "text") as [[| | | | |s| |]|]; try reflexivity.
  destruct (Json.member doc "id"); [discriminate | reflexivity].
Qed.

(* ===================================================================== *)
(** ** Properties of a run *)
(* ===================================================================== *)

Section Claims.
Context `{JT : JsonText} `{LL : Llama}.

Lemma main_success w w' content docs :
  fs w !! input_file = Some content ->
  json_parse content = Ok (JArray docs) ->
  main w = Returns 0 w' ->
  exists m c entries,
    llama_load_model_from_file model_path = Some m /\
    llama_init_from_model m ctx_params = Some c /\
    (output_file ∉ unwritable w) /\
    Forall2 (entry_for (llama_n_embd m)) docs entries /\
    fs w' = <[output_file := json_dump (JArray entries) 2]> (fs w) /\
    stderr w' = stderr w ++ construction_warnings m /\
    printed w w' =
      opening_lines (length docs) ++ [model_loaded_line (llama_n_embd m)] ++
      progress_lines (length docs) 0 (length docs) ++
      writing_line :: success_lines (length entries).
Proof.
  intros Hin Hparse Hmain. pose proof (main_spec w content docs Hin Hparse) as Hspec.
  rewrite Hmain in Hspec. destruct Hspec as [(_ & H) | (Hcode & _)]; [exact H | discriminate].
Qed.

Lemma int_document_fields doc :
  int_document doc = true ->
  exists z text,
    document_id doc = Some z /\ document_text doc = Some text /\ Int.in_range z = true.
Proof.
  unfold int_document.
  destruct (document_id doc) as [z|]; [|discriminate].
  destruct (document_text doc) as [text|]; [|discriminate]. eauto.
Qed.

(** C1 (amended).  For an input array of documents whose [id] is an
    integer within the range of [int] and whose [text] is a string, a
    successful run writes an array of the same length whose i-th record
    has the [id] and the [text] of the i-th document. *)
Theorem roundtrip_of_int_documents w w' content docs :
  fs w !! input_file = Some content ->
  json_parse content = Ok (JArray docs) ->
  forallb int_document docs = true ->
  main w = Returns 0 w' ->
  exists entries,
    fs w' !! output_file = Some (json_dump (JArray entries) 2) /\
    length entries = length docs /\
    forall i doc, docs !! i = Some doc ->
      exists entry, entries !! i = Some entry /\
        document_id entry = document_id doc /\
        document_text entry = document_text doc.
Proof.
  intros Hin Hparse Hint Hmain.
  destruct (main_success w w' content docs Hin Hparse Hmain)
    as (m & c & entries & _ & _ & _ & Hall & Hfs & _).
  exists entries. split; [rewrite Hfs; apply lookup_insert_eq|].
  split; [symmetry; eapply Forall2_length; eassumption|].
  intros i doc Hdoc.
  destruct (Forall2_lookup_l _ _ _ _ _ Hall Hdoc) as (entry & Hentry & Hfor).
  exists entry. split; [assumption|].
  destruct Hfor as (text & id & e & Hfields & -> & _).
  rewrite forallb_forall in Hint.
  destruct (int_document_fields doc) as (z & text' & Hid & Htext & Hrange).
  { apply Hint. apply list_elem_of_In. eapply list_elem_of_lookup_2. eassumption. }
  destruct (extract_fields_ok doc text id Hfields) as (Htext2 & _ & Hwrap).
  rewrite output_entry_id, output_entry_text, Hid, Htext2.
  rewrite (Hwrap z Hid), (wrap_in_range z Hrange). auto.
Qed.

(** C2.  In the array a successful run writes, the [embedding] of every
    record has as many elements as the embedding dimension of the loaded
    model, which is what [get_embedding_dim()] returns for the encoder the
    constructor builds from it; this is so whatever the texts are, since
    [encode] always returns exactly [get_embedding_dim()] floats and leaves
    the dimension of the encoder as it was. *)
Theorem embedding_length_is_dimension w w' content docs :
  fs w !! input_file = Some content ->
  json_parse content = Ok (JArray docs) ->
  main w = Returns 0 w' ->
  (exists m entries,
     llama_load_model_from_file model_path = Some m /\
     fs w' !! output_file = Some (json_dump (JArray entries) 2) /\
     length entries = length docs /\
     Forall (fun entry => embedding_length entry = Some (llama_n_embd m)) entries /\
     forall w0 enc w1,
       BGEEncoder_new model_path w0 = Returns enc w1 ->
       get_embedding_dim enc = llama_n_embd m) /\
  (forall enc text w1 e enc' w2,
     encode enc text w1 = Returns (e, enc') w2 ->
     Z.of_nat (length e) = get_embedding_dim enc /\
     get_embedding_dim enc' = get_embedding_dim enc).
Proof.
  intros Hin Hparse Hmain. split.
  - destruct (main_success w w' content docs Hin Hparse Hmain)
      as (m & c & entries & Hload & Hinit & _ & Hall & Hfs & _).
    exists m, entries. repeat split; auto.
    + rewrite Hfs. apply lookup_insert_eq.
    + symmetry. eapply Forall2_length. eassumption.
    + clear -Hall. induction Hall as [|doc entry docs entries Hfor _ IH]; constructor; auto.
      destruct Hfor as (text & id & e & _ & -> & Hlen).
      rewrite output_entry_embedding. now rewrite Hlen.
    + intros w0 enc w1 Hnew. pose proof (constructor_cases model_path w0) as Hcases.
      rewrite Hnew in Hcases. destruct Hcases as (m' & c' & Hload' & _ & -> & _).
      cbn. congruence.
  - intros enc text w1 e enc' w2 H.
    apply encode_returns in H as (Hlen & Hdim & _). auto.
Qed.

(** C3 (amended).  When the input array holds a document whose [text] is
    absent or not a string, or whose [id] is absent or neither a number nor
    a boolean (a document that lacks one of the two keys is one of those),
    a run whose behaviour is defined ends with exit code 1 and leaves every
    file as it was: the output file is never opened, and no document is
    skipped to let the run go on. *)
Theorem unreadable_document_aborts w content docs i doc :
  fs w !! input_file = Some content ->
  json_parse content = Ok (JArray docs) ->
  docs !! i = Some doc ->
  lacks_key doc = true \/ unreadable_document doc = true ->
  match main w with
  | Returns code w' => code = 1 /\ fs w' = fs w
  | Throws _ _ => False
  | Undef => True
  end.
Proof.
  intros Hin Hparse Hdoc Hbad.
  assert (Hunreadable : unreadable_document doc = true)
    by (destruct Hbad; auto using lacks_key_unreadable).
  pose proof (main_spec w content docs Hin Hparse) as Hspec.
  destruct (main w) as [code w' | what w' |]; [| assumption | exact I].
  destruct Hspec as [(_ & m & c & entries & _ & _ & _ & Hall & _) | (Hcode & Hfs & _)];
    [exfalso | auto].
  destruct (Forall2_lookup_l _ _ _ _ _ Hall Hdoc) as (entry & _ & Hfor).
  destruct Hfor as (text & id & e & Hfields & _).
  destruct (extract_fields_ok doc text id Hfields) as (_ & Hgood & _). congruence.
Qed.



(** C6 (amended).  For the input array of length 0, with the input file
    openable and parseable, the model loadable, the inference context
    created and the output file openable for writing, the run writes the
    array of length 0 to the output file and exits with code 0. *)
Theorem empty_input_writes_empty_array w content m c :
  fs w !! input_file = Some content ->
  json_parse content = Ok (JArray []) ->
  llama_load_model_from_file model_path = Some m ->
  llama_init_from_model m ctx_params = Some c ->
  output_file ∉ unwritable w ->
  exists w',
    main w = Returns 0 w' /\
    fs w' = <[output_file := json_dump (JArray []) 2]> (fs w).
Proof.
  intros Hin Hparse Hload Hinit Hrw. unfold main, try_catch.
  rewrite (main_try_eq w content (JArray []) Hin Hparse).
  unfold bind at 1. unfold BGEEncoder_new. rewrite Hload. cbn zeta. rewrite Hinit.
  unfold scoped, main_with_encoder, BGEEncoder_delete, bind, call, ret, print_out,
    print_err, open_out, write_out.
  destruct (negb (llama_n_embd m =? 768)); destruct (negb (llama_model_has_encoder m));
    cbn; (destruct (decide (output_file ∈ unwritable w)) as [|_]; [contradiction|]);
    cbn; eexists; (split; [reflexivity|]); cbn;
    rewrite lookup_insert_eq, insert_insert_eq; reflexivity.
Qed.

Lemma closing_lines_not_progress n :
  List.filter is_progress_line (writing_line :: success_lines n) = [].
Proof. reflexivity. Qed.

Lemma progress_indices_spec n k :
  In k (progress_indices 0 n) <-> (k < n)%nat /\ (k mod 100 = 0)%nat.
Proof.
  unfold progress_indices. rewrite filter_In, in_seq, Nat.eqb_eq. lia.
Qed.

(** C7.  The progress lines on the standard output are exactly those of
    the indices divisible by 100 among the documents the loop reached, which
    are all the documents when the run succeeds; an index below [n] is
    among them if and only if it is divisible by 100; and a run that
    processes exactly 250 documents prints the progress lines of the
    indices 0, 100 and 200 only. *)
Theorem progress_every_hundredth w content docs code w' :
  fs w !! input_file = Some content ->
  json_parse content = Ok (JArray docs) ->
  main w = Returns code w' ->
  (exists reached,
     (reached <= length docs)%nat /\
     (code = 0 -> reached = length docs) /\
     List.filter is_progress_line (printed w w') =
       map (fun i => progress_line i (length docs)) (progress_indices 0 reached)) /\
  (forall n k, In k (progress_indices 0 n) <-> (k < n)%nat /\ (k mod 100 = 0)%nat) /\
  (length docs = 250%nat -> code = 0 ->
   List.filter is_progress_line (printed w w') =
     [progress_line 0 250; progress_line 100 250; progress_line 200 250]).
Proof.
  intros Hin Hparse Hmain.
  assert (Hlines : exists reached,
     (reached <= length docs)%nat /\
     (code = 0 -> reached = length docs) /\
     List.filter is_progress_line (printed w w') =
       map (fun i => progress_line i (length docs)) (progress_indices 0 reached)).
  { pose proof (main_spec w content docs Hin Hparse) as Hspec. rewrite Hmain in Hspec.
    destruct Hspec as [(-> & m & c & entries & _ & _ & _ & _ & _ & _ & Hout)
                      | (-> & _ & reached & Hle & Hout)].
    - exists (length docs). split; [lia|]. split; [reflexivity|].
      rewrite Hout.
      rewrite !List.filter_app, progress_lines_are_progress, opening_lines_not_progress,
        model_loaded_line_not_progress, closing_lines_not_progress, app_nil_r.
      reflexivity.
    - exists reached. split; [assumption|]. split; [discriminate | exact Hout]. }
  split; [exact Hlines|]. split; [exact progress_indices_spec|].
  intros Hlen Hcode. destruct Hlines as (reached & _ & Hall & ->).
  rewrite (Hall Hcode), Hlen. reflexivity.
Qed.

Lemma process_document_eq docs i doc text id enc acc w :
  docs !! i = Some doc ->
  extract_fields doc = Ok (text, id) ->
  process_document (JArray docs) i enc (JArray acc) w =
    match encode enc text (after_progress w (length docs) i) with
    | Returns (e, enc') w' => Returns (JArray (acc ++ [output_entry id text e]), enc') w'
    | Throws what w' => Throws what w'
    | Undef => Undef
    end.
Proof.
  intros Hdoc Hfields. unfold process_document, after_progress.
  cbn [Json.at_index Json.size]. rewrite Hdoc.
  change (default JNull (Some doc)) with doc.
  unfold bind at 1. cbn [lift]. unfold bind at 1.
  replace ((if (i mod 100 =? 0)%nat
            then print_out (progress_line i (length docs)) else ret tt) w)
    with (Returns tt (World (fs w) (unwritable w)
            (stdout w ++ (if (i mod 100 =? 0)%nat
                          then [progress_line i (length docs)] else []))
            (stderr w) (llama_log w))).
  2:{ destruct (i mod 100 =? 0)%nat; cbn; [reflexivity|]. rewrite app_nil_r. now destruct w. }
  unfold bind at 1. rewrite Hfields. cbn [lift]. unfold bind at 1.
  destruct (encode enc text _) as [[e enc'] w2 | what w2 |]; reflexivity.
Qed.

(** C10.  A document whose [id] is an integer outside the range of [int]
    is read without an exception: the value is narrowed to the [int] that
    is congruent to it modulo 2^32, which differs from it; the iteration
    then fails only if [encode] does, and the record it appends carries the
    narrowed [id], not the one of the document. *)
Theorem wide_id_is_narrowed doc z text :
  document_id doc = Some z ->
  document_text doc = Some text ->
  Int.in_range z = false ->
  extract_fields doc = Ok (text, Int.wrap z) /\
  Int.in_range (Int.wrap z) = true /\
  (Int.wrap z - z) mod 2 ^ 32 = 0 /\
  Int.wrap z <> z /\
  forall docs i enc acc w,
    docs !! i = Some doc ->
    match process_document (JArray docs) i enc (JArray acc) w with
    | Returns (out, _) _ =>
        exists entry,
          out = JArray (acc ++ [entry]) /\
          document_id entry = Some (Int.wrap z) /\
          document_id entry <> document_id doc
    | Throws what w' =>
        encode enc text (after_progress w (length docs) i) = Throws what w'
    | Undef => encode enc text (after_progress w (length docs) i) = Undef
    end.
Proof.
  intros Hid Htext Hout.
  pose proof (extract_fields_of_document doc z text Hid Htext) as Hfields.
  pose proof (wrap_out_of_range z Hout) as Hne.
  split; [assumption|]. split; [apply wrap_is_int|]. split; [|split; [assumption|]].
  - unfold Int.wrap.
    replace ((z + 2 ^ 31) mod 2 ^ 32 - 2 ^ 31 - z)
      with (- ((z + 2 ^ 31) / 2 ^ 32) * 2 ^ 32)
      by (pose proof (Z.div_mod (z + 2 ^ 31) (2 ^ 32) ltac:(lia)); lia).
    apply Z.mod_mul. lia.
  - intros docs i enc acc w Hdoc.
    rewrite (process_document_eq docs i doc text (Int.wrap z) enc acc w Hdoc Hfields).
    destruct (encode enc text _) as [[e enc'] w2 | what w2 |]; auto.
    exists (output_entry (Int.wrap z) text e).
    rewrite output_entry_id, Hid. split; [reflexivity|]. split; [reflexivity|]. congruence.
Qed.

End Claims.

(* ===================================================================== *)
(** ** The claims on the concrete instance *)
(* ===================================================================== *)

(** The round trip on two documents, with the ids 1 and -7. *)
Lemma roundtrip_of_int_documents_witness :
  let JT := Demo.fixed_json (JArray Demo.two_documents) in
  let LL := Demo.engine 4 true in
  match @main JT LL (@Demo.start LL ∅) with
  | Returns code w' =>
      code = 0 /\
      exists entries,
        fs w' !! output_file = Some (@json_dump JT (JArray entries) 2) /\
        length entries = length Demo.two_documents /\
        forall i doc, Demo.two_documents !! i = Some doc ->
          exists entry, entries !! i = Some entry /\
            document_id entry = document_id doc /\
            document_text entry = document_text doc
  | _ => False
  end.
Proof.
  intros JT LL.
  assert (Hseen : exit_code_and_output (@main JT LL (@Demo.start LL ∅))
                  = Some (0, Some "1:ab;-7:c")) by (vm_compute; reflexivity).
  destruct (@main JT LL (@Demo.start LL ∅)) as [code w' | what w' |] eqn:Hrun;
    [| discriminate Hseen | discriminate Hseen].
  injection Hseen as -> _. split; [reflexivity|].
  apply (@roundtrip_of_int_documents JT LL (@Demo.start LL ∅) w' "documents"
           Demo.two_documents);
    [vm_compute; reflexivity | reflexivity | vm_compute; reflexivity | exact Hrun].
Defined.

(** C1, as stated, fails: the document has an integer [id] and a string
    [text], the run succeeds, and the record written has the [id]
    -2147483648 where the document has 2147483648; no array with the [id]
    of the document is what the output file holds. *)
Lemma wide_id_breaks_roundtrip :
  let JT := Demo.fixed_json (JArray [Demo.wide_document]) in
  let LL := Demo.engine 4 true in
  valid_document Demo.wide_document = true /\
  document_id Demo.wide_document = Some 2147483648 /\
  exit_code_and_output (@main JT LL (@Demo.start LL ∅)) = Some (0, Some "-2147483648:a") /\
  ~ (exists entries,
       @json_dump JT (JArray entries) 2 = "-2147483648:a" /\
       length entries = 1%nat /\
       forall i doc, [Demo.wide_document] !! i = Some doc ->
         exists entry, entries !! i = Some entry /\
           document_id entry = document_id doc /\
           document_text entry = document_text doc).
Proof.
  cbv zeta. split; [reflexivity|]. split; [reflexivity|].
  split; [vm_compute; reflexivity|].
  intros (entries & Hfile & Hlen & Hall).
  destruct entries as [|entry [|? ?]]; try discriminate Hlen.
  destruct (Hall 0%nat Demo.wide_document eq_refl) as (entry' & [= <-] & Hid & Htext).
  assert (Hshown : Demo.show_record entry = "2147483648:a").
  { unfold Demo.show_record. rewrite Hid, Htext. vm_compute. reflexivity. }
  cbn [json_dump Demo.fixed_json Demo.show_records map String.concat] in Hfile.
  rewrite Hshown in Hfile. discriminate Hfile.
Qed.

(** Two documents, a model of dimension 4: every embedding has 4 floats. *)
Lemma embedding_length_is_dimension_witness :
  let JT := Demo.fixed_json (JArray Demo.two_documents) in
  let LL := Demo.engine 4 true in
  match @main JT LL (@Demo.start LL ∅) with
  | Returns code w' =>
      code = 0 /\
      exists entries,
        fs w' !! output_file = Some (@json_dump JT (JArray entries) 2) /\
        length entries = length Demo.two_documents /\
        Forall (fun entry => embedding_length entry = Some 4) entries
  | _ => False
  end.
Proof.
  intros JT LL.
  assert (Hseen : exit_code_and_output (@main JT LL (@Demo.start LL ∅))
                  = Some (0, Some "1:ab;-7:c")) by (vm_compute; reflexivity).
  destruct (@main JT LL (@Demo.start LL ∅)) as [code w' | what w' |] eqn:Hrun;
    [| discriminate Hseen | discriminate Hseen].
  injection Hseen as -> _. split; [reflexivity|].
  destruct (@embedding_length_is_dimension JT LL (@Demo.start LL ∅) w' "documents"
              Demo.two_documents ltac:(vm_compute; reflexivity) eq_refl Hrun)
    as ((m & entries & Hload & Hfile & Hlen & Hall & _) & _).
  injection Hload as <-. exists entries. auto.
Defined.

(** C3, as stated, fails: the [id] of the document is a boolean, not an
    integer, and the run succeeds and writes the record with the [id] 1;
    and so it does when the [id] is the floating-point number 1.5. *)
Lemma boolean_id_is_accepted :
  let LL := Demo.engine 4 true in
  (Json.member Demo.boolean_document "id" = Some (JBoolean true) /\
   document_id Demo.boolean_document = None /\
   exit_code_and_output
     (@main (Demo.fixed_json (JArray [Demo.boolean_document])) LL (@Demo.start LL ∅))
     = Some (0, Some "1:a")) /\
  (Json.member Demo.fractional_document "id" = Some (JFloat 1.5%float) /\
   document_id Demo.fractional_document = None /\
   exit_code_and_output
     (@main (Demo.fixed_json (JArray [Demo.fractional_document])) LL (@Demo.start LL ∅))
     = Some (0, Some "1:a")).
Proof. cbv zeta. repeat split; vm_compute; reflexivity. Qed.

(** A document without [text] in second place: exit code 1, no output file. *)
Lemma unreadable_document_aborts_witness :
  let JT := Demo.fixed_json (JArray Demo.truncated_documents) in
  let LL := Demo.engine 4 true in
  exit_code_and_output (@main JT LL (@Demo.start LL ∅)) = Some (1, None) /\
  match @main JT LL (@Demo.start LL ∅) with
  | Returns code w' => code = 1 /\ fs w' = fs (@Demo.start LL ∅)
  | Throws _ _ => False
  | Undef => True
  end.
Proof.
  intros JT LL. split; [vm_compute; reflexivity|].
  apply (@unreadable_document_aborts JT LL (@Demo.start LL ∅) "documents"
           Demo.truncated_documents 1%nat (JObject {["id" := JUnsigned 2]}));
    [vm_compute; reflexivity | reflexivity | reflexivity | left; vm_compute; reflexivity].
Defined.

(** The text of two bytes has four tokens in the concrete engine: no
    tokenization error, and a batch of four tokens. *)
Lemma encode_tokenization_error_witness :
  let LL := Demo.engine 4 true in
  let enc := {| model := 4; ctx := 0; vocab := tt; n_embd := 4 |} : @BGEEncoder LL in
  let w := @Demo.start LL ∅ in
  Int.neg (dry_run enc "ab") = Ok 4 /\
  ~ (exists w', encode enc "ab" w = Throws "Failed to tokenize text" w') /\
  batch_token (submitted_batch enc "ab" 4) = [101; 97; 98; 102] /\
  forall w', final_world (encode enc "ab" w) = Some w' ->
    exists rest,
      llama_log w' =
        llama_log w ++
          probe_call "ab" :: tokenize_call "ab" 4
          :: Call_encode (submitted_batch enc "ab" 4) :: rest.
Proof.
  intros LL enc w.
  pose proof (@encode_tokenization_error LL enc "ab" w) as H.
  change (Int.neg (dry_run enc "ab")) with (@Ok Z 4) in H. cbv beta iota in H.
  destruct H as (_ & Hiff & _ & _ & Hbatch).
  assert (Hsecond : fst (second_run enc "ab" 4) = 4) by reflexivity.
  split; [reflexivity|]. split.
  - intros Hthrows. apply Hiff in Hthrows. rewrite Hsecond in Hthrows. lia.
  - split; [reflexivity|].
    destruct (Hbatch ltac:(lia) ltac:(rewrite Hsecond; lia)) as (_ & _ & Hlog).
    exact Hlog.
Defined.

(** C4, as stated, fails: the dry run reports the positive count 3, and
    [encode] throws the tokenization error all the same, because the second
    tokenizer call returns a negative result. *)
Lemma failed_second_call_is_a_tokenization_error :
  let LL := Demo.refusing_tokenizer in
  let enc := {| model := 4; ctx := 0; vocab := tt; n_embd := 4 |} : @BGEEncoder LL in
  let w := @Demo.start LL ∅ in
  Int.neg (dry_run enc "ab") = Ok 3 /\
  fst (second_run enc "ab" 3) = -3 /\
  encode enc "ab" w =
    Throws "Failed to tokenize text" (logged w [probe_call "ab"; tokenize_call "ab" 3]) /\
  ~ ((exists w', encode enc "ab" w = Throws "Failed to tokenize text" w') <-> 3 <= 0).
Proof.
  intros LL enc w. split; [reflexivity|]. split; [reflexivity|].
  assert (Hthrows :
    encode enc "ab" w =
    Throws "Failed to tokenize text" (logged w [probe_call "ab"; tokenize_call "ab" 3])).
  { rewrite encode_steps. reflexivity. }
  split; [exact Hthrows|]. intros [Honly _].
  assert (3 <= 0) by (apply Honly; eauto). lia.
Qed.

(** Two calls on the engine of the concrete instance, whose forward pass
    ignores the state of the context. *)
Lemma repeated_encode_agrees_witness :
  let LL := Demo.engine 4 true in
  let enc := {| model := 4; ctx := 0; vocab := tt; n_embd := 4 |} : @BGEEncoder LL in
  let w := @Demo.start LL ∅ in
  @context_independent LL /\
  match encode enc "ab" w with
  | Returns (e1, enc1) w1 =>
      match encode enc1 "ab" w1 with
      | Returns (e2, _) _ => e1 = e2
      | _ => False
      end
  | _ => False
  end.
Proof.
  intros LL enc w.
  assert (Hengine : @context_independent LL) by (intros c1 c2 batch; split; reflexivity).
  split; [exact Hengine|].
  assert (Hfirst : match encode enc "ab" w with Returns _ _ => True | _ => False end)
    by (vm_compute; exact I).
  destruct (encode enc "ab" w) as [[e1 enc1] w1 | ? ? |] eqn:H1; try contradiction.
  assert (Hsecond : match encode enc1 "ab" w1 with Returns _ _ => True | _ => False end).
  { destruct (encode_returns enc "ab" w e1 enc1 w1 H1) as (_ & Hdim & _ & _).
    rewrite encode_steps. cbv zeta.
    change (Int.neg (dry_run enc1 "ab")) with (@Ok Z 4). cbv beta iota.
    rewrite Hdim. vm_compute. exact I. }
  destruct (encode enc1 "ab" w1) as [[e2 enc2] w2 | ? ? |] eqn:H2; try contradiction.
  exact (@repeated_encode_agrees LL enc "ab" w e1 enc1 w1 e2 enc2 w2 Hengine H1 H2).
Defined.

(** C9, as stated, fails: on an engine whose embeddings depend on the
    forward passes made before, the second call returns another vector
    than the first. *)
Lemma repeated_encode_can_differ :
  let LL := Demo.counting_engine in
  let enc := {| model := 4; ctx := 0; vocab := tt; n_embd := 4 |} : @BGEEncoder LL in
  let w := @Demo.start LL ∅ in
  match encode enc "ab" w with
  | Returns (e1, enc1) w1 =>
      match encode enc1 "ab" w1 with
      | Returns (e2, _) _ =>
          e1 = replicate 4 0.25%float /\ e2 = replicate 4 0.5%float /\ e1 <> e2
      | _ => False
      end
  | _ => False
  end.
Proof.
  vm_compute. split; [reflexivity|]. split; [reflexivity|]. intros H.
  apply (f_equal (fun l => match l with
                           | x :: _ => PrimFloat.eqb x 0.25%float
                           | [] => false
                           end)) in H.
  vm_compute in H. discriminate H.
Qed.


(** C6, as stated, fails: the input file opens and parses to the empty
    array and the model loads, but the output file cannot be opened for
    writing; the run exits with code 1 and writes no output file. *)
Lemma unwritable_output_fails_empty_input :
  let JT := Demo.fixed_json (JArray []) in
  let LL := Demo.engine 4 true in
  let w := @Demo.start LL {[ output_file ]} in
  fs w !! input_file = Some "documents" /\
  @json_parse JT "documents" = Ok (JArray []) /\
  @llama_load_model_from_file LL model_path = Some 4 /\
  exit_code_and_output (@main JT LL w) = Some (1, None).
Proof. cbv zeta. repeat split; vm_compute; reflexivity. Qed.

(** The empty array, with a writable output file. *)
Lemma empty_input_writes_empty_array_witness :
  let JT := Demo.fixed_json (JArray []) in
  let LL := Demo.engine 4 true in
  let w := @Demo.start LL ∅ in
  exists w',
    @main JT LL w = Returns 0 w' /\
    fs w' = <[output_file := @json_dump JT (JArray []) 2]> (fs w).
Proof.
  intros JT LL w.
  apply (@empty_input_writes_empty_array JT LL w "documents" 4 0);
    [vm_compute; reflexivity | reflexivity | reflexivity | reflexivity |].
  apply not_elem_of_empty.
Defined.

(** Two documents: one progress line, for the index 0. *)
Lemma progress_every_hundredth_witness :
  let JT := Demo.fixed_json (JArray Demo.two_documents) in
  let LL := Demo.engine 4 true in
  match @main JT LL (@Demo.start LL ∅) with
  | Returns code w' =>
      code = 0 /\
      List.filter is_progress_line (printed (@Demo.start LL ∅) w') = [progress_line 0 2]
  | _ => False
  end.
Proof.
  intros JT LL.
  assert (Hseen : exit_code_and_output (@main JT LL (@Demo.start LL ∅))
                  = Some (0, Some "1:ab;-7:c")) by (vm_compute; reflexivity).
  destruct (@main JT LL (@Demo.start LL ∅)) as [code w' | what w' |] eqn:Hrun;
    [| discriminate Hseen | discriminate Hseen].
  injection Hseen as -> _. split; [reflexivity|].
  destruct (@progress_every_hundredth JT LL (@Demo.start LL ∅) "documents"
              Demo.two_documents 0 w' ltac:(vm_compute; reflexivity) eq_refl Hrun)
    as ((reached & _ & Hall & ->) & _).
  rewrite (Hall eq_refl). reflexivity.
Defined.

(** An engine that loads the model and refuses the context. *)
Lemma failed_context_releases_model_witness :
  let LL := Demo.engine 4 false in
  let w := @Demo.start LL ∅ in
  exists w',
    @BGEEncoder_new LL model_path w = Throws "Failed to create context" w' /\
    llama_log w' =
      [Call_backend_load_all; Call_load_model model_path (Some 4);
       Call_init_from_model 4 ctx_params None; Call_model_free 4] /\
    models_held (llama_log w') = 0.
Proof.
  intros LL w.
  exact (@failed_context_releases_model LL model_path 4 w eq_refl eq_refl).
Defined.

(** The [id] 2^31 is read as -2^31. *)
Lemma wide_id_is_narrowed_witness :
  extract_fields Demo.wide_document = Ok ("a", -2147483648) /\
  Int.wrap 2147483648 = -2147483648 /\
  Int.in_range (Int.wrap 2147483648) = true /\
  (Int.wrap 2147483648 - 2147483648) mod 2 ^ 32 = 0 /\
  Int.wrap 2147483648 <> 2147483648.
Proof.
  destruct (@wide_id_is_narrowed (Demo.engine 4 true) Demo.wide_document 2147483648 "a"
              eq_refl eq_refl eq_refl)
    as (Hfields & Hrange & Hmod & Hne & _).
  repeat split; assumption || reflexivity.
Defined.

(* ===================================================================== *)
(** ** The engine calls of a run *)
(* ===================================================================== *)

Section CallFacts.
Context `{LL : Llama}.

Lemma contexts_held_app (l1 l2 : list llama_call) :
  contexts_held (l1 ++ l2) = contexts_held l1 + contexts_held l2.
Proof.
  induction l1 as [|c l1 IH]; cbn; [lia|].
  destruct c as [ | | ? ? [?|] | | | | | ]; cbn; lia.
Qed.

Lemma inference_calls_hold_nothing (cs : list llama_call) :
  forallb is_inference_call cs = true ->
  models_held cs = 0 /\ contexts_held cs = 0.
Proof.
  induction cs as [|c cs IH]; cbn; [auto|].
  intros H. apply andb_prop in H as [Hc Hcs]. destruct (IH Hcs) as [IHm IHc].
  destruct c; cbn in *; try discriminate; auto.
Qed.

Lemma forward_passes_app (l1 l2 : list llama_call) :
  forward_passes (l1 ++ l2) = (forward_passes l1 + forward_passes l2)%nat.
Proof. unfold forward_passes. now rewrite List.filter_app, length_app. Qed.

Lemma new_calls_app w w' cs : llama_log w' = llama_log w ++ cs -> new_calls w w' = cs.
Proof. unfold new_calls. intros ->. apply drop_app_length. Qed.

Lemma new_errors_app w w' lines : stderr w' = stderr w ++ lines -> new_errors w w' = lines.
Proof. unfold new_errors. intros ->. apply drop_app_length. Qed.

(** What [encode] calls, by the way it ends. *)
Lemma encode_calls enc text w :
  match encode enc text w with
  | Returns (e, enc') w' =>
      exists n tokens,
        0 < n /\ Z.of_nat (length tokens) = n /\
        llama_log w' = llama_log w ++
          [probe_call text; tokenize_call text n;
           Call_encode (llama_batch_get_one tokens n); Call_get_embeddings_seq 0] /\
        model enc' = model enc
  | Throws what w' =>
      exists n batch,
        (what = "Failed to tokenize text" /\ llama_log w' = llama_log w ++ [probe_call text]) \/
        (what = "Failed to tokenize text" /\
         llama_log w' = llama_log w ++ [probe_call text; tokenize_call text n]) \/
        (what = "Failed to encode batch" /\
         llama_log w' = llama_log w ++ [probe_call text; tokenize_call text n; Call_encode batch]) \/
        (what = "Failed to get embeddings" /\
         llama_log w' = llama_log w ++
           [probe_call text; tokenize_call text n; Call_encode batch;
            Call_get_embeddings_seq 0])
  | Undef => True
  end.
Proof.
  rewrite encode_steps. cbv zeta. unfold logged.
  destruct (Int.neg (dry_run enc text)) as [n | what |] eqn:Hneg;
    [| now apply neg_never_throws in Hneg | exact I].
  destruct (n <=? 0) eqn:Hn.
  { exists n, (submitted_batch enc text n). left. auto. }
  apply Z.leb_gt in Hn.
  destruct (fst (second_run enc text n) <? 0).
  { exists n, (submitted_batch enc text n). right. left. auto. }
  destruct (negb (fst (llama_encode (ctx enc) (submitted_batch enc text n)) =? 0)).
  { exists n, (submitted_batch enc text n). right. right. left. auto. }
  destruct (llama_get_embeddings_seq _ 0) as [embd|].
  2:{ exists n, (submitted_batch enc text n). right. right. right. auto. }
  destruct (copy_floats embd (n_embd enc)) as [e | what |] eqn:Hcopy;
    [| now apply copy_floats_never_throws in Hcopy | exact I].
  exists n, (fill_buffer (Z.to_nat n) (snd (second_run enc text n))).
  split; [assumption|]. split; [rewrite fill_buffer_length; lia|]. auto.
Qed.


Lemma encode_only_inference enc text w :
  match encode enc text w with
  | Returns (e, enc') w' =>
      model enc' = model enc /\
      exists cs, only_inference w w' cs /\ forward_passes cs = 1%nat
  | Throws what w' => exists cs, only_inference w w' cs
  | Undef => True
  end.
Proof.
  pose proof (encode_calls enc text w) as H.
  destruct (encode enc text w) as [[e enc'] w' | what w' |]; [| | exact I].
  - destruct H as (n & tokens & _ & _ & Hlog & Hmodel).
    split; [assumption|]. eexists. split; [split; [eassumption|]|]; reflexivity.
  - destruct H as (n & batch & [(_ & Hlog) | [(_ & Hlog) | [(_ & Hlog) | (_ & Hlog)]]]);
      eexists; (split; [eassumption | reflexivity]).
Qed.

Lemma only_inference_trans w1 w2 w3 cs1 cs2 :
  only_inference w1 w2 cs1 -> only_inference w2 w3 cs2 ->
  only_inference w1 w3 (cs1 ++ cs2).
Proof.
  unfold only_inference. intros (H1 & F1) (H2 & F2).
  rewrite H2, H1, <- app_assoc, forallb_app, F1, F2. auto.
Qed.

Lemma only_inference_nil w w' : llama_log w' = llama_log w -> only_inference w w' [].
Proof. intros H. split; [now rewrite app_nil_r | reflexivity]. Qed.

Lemma process_document_calls input i enc acc w :
  match process_document input i enc (JArray acc) w with
  | Returns (out, enc') w' =>
      same_files w w' /\ model enc' = model enc /\
      exists cs entry,
        only_inference w w' cs /\ forward_passes cs = 1%nat /\
        out = JArray (acc ++ [entry])
  | Throws what w' => same_files w w' /\ exists cs, only_inference w w' cs
  | Undef => True
  end.
Proof.
  unfold process_document.
  unfold bind at 1.
  destruct (Json.at_index input i) as [doc | what |]; cbn [lift];
    [| split; [auto | exists []; now apply only_inference_nil] | exact I].
  unfold bind at 1.
  set (w1 := World (fs w) (unwritable w)
                   (stdout w ++ progress_at (Json.size input) i) (stderr w) (llama_log w)).
  assert (Hprint :
    (if (i mod 100 =? 0)%nat then print_out (progress_line i (Json.size input)) else ret tt) w
      = Returns tt w1).
  { unfold w1, progress_at. destruct (i mod 100 =? 0)%nat; cbn; [reflexivity|].
    rewrite app_nil_r. now destruct w. }
  rewrite Hprint.
  assert (Hw1 : same_files w w1) by (now repeat split).
  assert (Hlog1 : llama_log w1 = llama_log w) by reflexivity.
  unfold bind at 1.
  destruct (extract_fields doc) as [[text id] | what |]; cbn [lift];
    [| split; [auto | exists []; now apply only_inference_nil] | exact I].
  unfold bind at 1.
  pose proof (encode_only_inference enc text w1) as Hcalls.
  pose proof (encode_returns enc text w1) as Hret.
  pose proof (encode_throws enc text w1) as Hthrow.
  destruct (encode enc text w1) as [[e enc'] w2 | what w2 |]; [| | exact I].
  - destruct (Hret e enc' w2 eq_refl) as (_ & _ & _ & _ & Hfiles & _).
    destruct Hcalls as (Hmodel & cs & (Hcs & Hinf) & Hone).
    rewrite make_entry_eq. unfold bind, lift, ret. cbn [Json.push_back].
    split; [exact (same_files_trans w w1 w2 Hw1 Hfiles)|]. split; [assumption|].
    exists cs, (output_entry id text e). repeat split; auto.
  - destruct (Hthrow what w2 eq_refl) as (Hfiles & _).
    destruct Hcalls as (cs & Hcs & Hinf).
    split; [exact (same_files_trans w w1 w2 Hw1 Hfiles)|].
    exists cs. split; [now rewrite Hcs, Hlog1 | assumption].
Qed.

Lemma process_documents_calls n :
  forall input i enc acc w,
  match process_documents n input i enc (JArray acc) w with
  | Returns out w' =>
      same_files w w' /\
      exists cs entries,
        only_inference w w' cs /\ forward_passes cs = n /\
        out = JArray (acc ++ entries) /\ length entries = n
  | Throws what w' => same_files w w' /\ exists cs, only_inference w w' cs
  | Undef => True
  end.
Proof.
  induction n as [|n IH]; intros input i enc acc w.
  - cbn. split; [auto|]. exists [], []. rewrite app_nil_r.
    repeat split; auto. now rewrite app_nil_r.
  - cbn [process_documents]. unfold bind at 1.
    pose proof (process_document_calls input i enc acc w) as Hstep.
    destruct (process_document input i enc (JArray acc) w)
      as [[out enc'] w1 | what w1 |]; [| exact Hstep | exact I].
    destruct Hstep as (Hfiles & _ & cs & entry & Hcs & Hone & ->).
    specialize (IH input (S i) enc' (acc ++ [entry]) w1).
    destruct (process_documents n input (S i) enc' (JArray (acc ++ [entry])) w1)
      as [out' w2 | what w2 |]; [| | exact I].
    + destruct IH as (Hfiles' & cs' & entries & Hcs' & Hn & -> & Hlen).
      split; [eapply same_files_trans; eassumption|].
      exists (cs ++ cs'), (entry :: entries).
      split; [eapply only_inference_trans; eassumption|].
      rewrite forward_passes_app, Hone, Hn, <- app_assoc. cbn. auto.
    + destruct IH as (Hfiles' & cs' & Hcs').
      split; [eapply same_files_trans; eassumption|].
      exists (cs ++ cs'). eapply only_inference_trans; eassumption.
Qed.

End CallFacts.

Section EndingFacts.
Context `{JT : JsonText} `{LL : Llama}.

Lemma constructor_calls path w :
  match BGEEncoder_new path w with
  | Returns enc w' =>
      exists m c,
        llama_load_model_from_file path = Some m /\
        llama_init_from_model m ctx_params = Some c /\
        model enc = m /\
        llama_log w' = llama_log w ++ construction_calls path m c
  | Throws what w' =>
      (llama_load_model_from_file path = None /\
       llama_log w' = llama_log w ++ [Call_backend_load_all; Call_load_model path None] /\
       stderr w' = stderr w) \/
      (exists m,
         llama_load_model_from_file path = Some m /\
         llama_init_from_model m ctx_params = None /\
         llama_log w' = llama_log w ++ abandoned_construction_calls path m /\
         stderr w' = stderr w ++ early_warnings m)
  | Undef => False
  end.
Proof.
  unfold BGEEncoder_new, construction_calls, abandoned_construction_calls, early_warnings.
  destruct (llama_load_model_from_file path) as [m|] eqn:Hload.
  - cbn zeta.
    destruct (llama_init_from_model m ctx_params) as [c|] eqn:Hinit;
      unfold bind, call, throw, ret, print_out, print_err;
      destruct (negb (llama_n_embd m =? 768)) eqn:Hdim;
      destruct (negb (llama_model_has_encoder m)) eqn:Henc; cbn;
      try (exists m, c; rewrite <- ?app_assoc; cbn; auto);
      try (right; exists m; rewrite Hdim, <- ?app_assoc, ?app_nil_r; cbn; auto).
  - unfold bind, call, throw. cbn. left. rewrite <- app_assoc. auto.
Qed.

Lemma main_with_encoder_calls input enc w :
  match main_with_encoder input enc w with
  | Returns code w' =>
      unwritable w' = unwritable w /\
      exists cs entries,
        only_inference w w' cs /\
        forward_passes cs = Json.size input /\
        length entries = Json.size input /\
        ((code = 0 /\ (output_file ∉ unwritable w) /\
          fs w' = <[output_file := json_dump (JArray entries) 2]> (fs w) /\
          stderr w' = stderr w) \/
         (code = 1 /\ (output_file ∈ unwritable w) /\
          fs w' = fs w /\ stderr w' = stderr w ++ [cannot_write_line]))
  | Throws what w' => same_files w w' /\ exists cs, only_inference w w' cs
  | Undef => True
  end.
Proof.
  unfold main_with_encoder.
  pose proof (process_documents_calls (Json.size input) input 0%nat enc [] w) as Hloop.
  unfold bind at 1.
  destruct (process_documents (Json.size input) input 0 enc (JArray []) w)
    as [out w1 | what w1 |]; [| exact Hloop | exact I].
  destruct Hloop as ((Hfs & Hun & Herr) & cs & entries & (Hlog & Hinf) & Hpasses & -> & Hlen).
  cbn [app].
  unfold bind, print_out, open_out, print_err, write_out, ret. cbn.
  rewrite Hun.
  destruct (decide (output_file ∈ unwritable w)) as [Hro | Hrw]; cbn.
  - split; [reflexivity|]. exists cs, entries. repeat split; auto.
    right. rewrite Hfs, Herr. auto.
  - split; [reflexivity|]. exists cs, entries. repeat split; auto.
    left. rewrite lookup_insert_eq. cbn. rewrite insert_insert_eq, Hfs, Herr. auto.
Qed.

Lemma main_ends w :
  match main w with
  | Returns code w' => unwritable w' = unwritable w /\ run_ending w code w'
  | Throws _ _ => False
  | Undef => True
  end.
Proof.
  destruct (fs w !! input_file) as [content|] eqn:Hin.
  2:{ unfold main, try_catch, main_try, bind, print_out, open_in, print_err, ret.
      cbn. rewrite Hin. cbn. split; [reflexivity|].
      apply Input_unopened; auto. }
  destruct (json_parse content) as [input | what |] eqn:Hparse.
  2:{ unfold main, try_catch, main_try, bind, print_out, open_in, print_err, ret, lift.
      cbn. rewrite Hin. cbn. rewrite Hparse. cbn. split; [reflexivity|].
      eapply Input_unparsed; eauto. }
  2:{ unfold main, try_catch, main_try, bind, print_out, open_in, print_err, ret, lift.
      cbn. rewrite Hin. cbn. rewrite Hparse. exact I. }
  unfold main, try_catch. rewrite (main_try_eq w content input Hin Hparse).
  set (w0 := World _ _ _ _ _).
  pose proof (constructor_cases model_path w0) as Hnew.
  pose proof (constructor_calls model_path w0) as Hcalls.
  unfold bind at 1.
  destruct (BGEEncoder_new model_path w0) as [enc w1 | what w1 |]; [| | contradiction].
  - destruct Hnew as (m & c & Hload & Hinit & -> & Hfs & Hun & _ & Herr).
    destruct Hcalls as (m' & c' & Hload' & Hinit' & _ & Hlog).
    assert (m' = m) as -> by congruence. assert (c' = c) as -> by congruence.
    pose proof (main_with_encoder_calls input
      {| model := m; ctx := c; vocab := llama_model_get_vocab m; n_embd := llama_n_embd m |}
      w1) as Hrun.
    unfold scoped.
    destruct (main_with_encoder _ _ w1) as [code w2 | what w2 |]; [| | exact I].
    + destruct Hrun as (Hun2 & cs & entries & (Hlog2 & Hinf) & Hpasses & Hlen & Hcase).
      unfold bind, BGEEncoder_delete, call, ret. cbn.
      split; [now rewrite Hun2, Hun|].
      assert (Hlogs : (llama_log w2 ++ [Call_free]) ++ [Call_model_free m] =
                      llama_log w ++ construction_calls model_path m c ++ cs
                        ++ destruction_calls m).
      { rewrite Hlog2, Hlog. unfold w0, destruction_calls. cbn [llama_log].
        now rewrite <- !app_assoc. }
      rewrite Hun in Hcase.
      destruct Hcase as [(-> & Hrw & Hfs2 & Herr2) | (-> & Hro & Hfs2 & Herr2)].
      * apply (Completed w content input m c cs entries _
                 Hin Hparse Hload Hinit Hinf Hpasses Hrw Hlen); cbn [fs stderr llama_log].
        -- rewrite Hfs2, Hfs. reflexivity.
        -- exact Hlogs.
        -- rewrite Herr2, Herr. reflexivity.
      * apply (Output_unopened w content input m c cs _
                 Hin Hparse Hload Hinit Hinf Hpasses Hro); cbn [fs stderr llama_log].
        -- rewrite Hfs2, Hfs. reflexivity.
        -- exact Hlogs.
        -- rewrite Herr2, Herr. unfold w0. cbn [stderr]. now rewrite <- app_assoc.
    + destruct Hrun as ((Hfs2 & Hun2 & Herr2) & cs & Hlog2 & Hinf).
      unfold bind, BGEEncoder_delete, call, throw, print_err, ret. cbn.
      split; [now rewrite Hun2, Hun|].
      apply (Document_failed w content input m c cs what _
               Hin Hparse Hload Hinit Hinf); cbn [fs stderr llama_log].
      * rewrite Hfs2, Hfs. reflexivity.
      * rewrite Hlog2, Hlog. unfold w0, destruction_calls. cbn [llama_log].
        now rewrite <- !app_assoc.
      * rewrite Herr2, Herr. unfold w0, error_line. cbn [stderr]. now rewrite <- app_assoc.
  - destruct Hnew as (Hfs & Hun & Hwhy).
    unfold bind, print_err, ret. cbn. split; [exact Hun|].
    destruct Hwhy as [(Hload & -> & _) | (m & Hload & Hinit & -> & _)].
    + destruct Hcalls as [(_ & Hlog & Herr) | (m & Hload' & _)]; [|congruence].
      apply (Model_unloaded w content input _ Hin Hparse Hload); cbn [fs stderr llama_log].
      * exact Hfs.
      * exact Hlog.
      * rewrite Herr. reflexivity.
    + destruct Hcalls as [(Hload' & _) | (m' & Hload' & _ & Hlog & Herr)]; [congruence|].
      assert (m' = m) as -> by congruence.
      apply (Context_uncreated w content input m _ Hin Hparse Hload Hinit);
        cbn [fs stderr llama_log].
      * exact Hfs.
      * exact Hlog.
      * rewrite Herr. unfold w0. cbn [stderr]. now rewrite <- app_assoc.
Qed.

End EndingFacts.

(* ===================================================================== *)
(** ** Further properties of a run *)
(* ===================================================================== *)

Section RunProperties.
Context `{JT : JsonText} `{LL : Llama}.

Lemma constructor_returns path m c w :
  llama_load_model_from_file path = Some m ->
  llama_init_from_model m ctx_params = Some c ->
  BGEEncoder_new path w =
    Returns {| model := m; ctx := c; vocab := llama_model_get_vocab m;
               n_embd := llama_n_embd m |}
            (World (fs w) (unwritable w)
                   (stdout w ++ [model_loaded_line (llama_n_embd m)])
                   (stderr w ++ construction_warnings m)
                   (llama_log w ++ construction_calls path m c)).
Proof.
  intros Hload Hinit.
  unfold BGEEncoder_new, construction_warnings, encoder_warning, construction_calls.
  rewrite Hload. cbn zeta. rewrite Hinit.
  unfold bind, call, ret, print_out, print_err, model_loaded_line, dimension_warning.
  destruct (negb (llama_n_embd m =? 768)); destruct (negb (llama_model_has_encoder m));
    cbn [fs unwritable stdout stderr llama_log app];
    rewrite <- ?app_assoc, ?app_nil_r; reflexivity.
Qed.

Lemma scoped_encoder {A} (body : M A) enc w :
  scoped body (BGEEncoder_delete enc) w =
    match body w with
    | Returns a w' =>
        Returns a (World (fs w') (unwritable w') (stdout w') (stderr w')
                         (llama_log w' ++ destruction_calls (model enc)))
    | Throws what w' =>
        Throws what (World (fs w') (unwritable w') (stdout w') (stderr w')
                           (llama_log w' ++ destruction_calls (model enc)))
    | Undef => Undef
    end.
Proof.
  unfold scoped, BGEEncoder_delete, destruction_calls, bind, call, ret, throw.
  destruct (body w); cbn [fs unwritable stdout stderr llama_log];
    rewrite <- ?app_assoc; reflexivity.
Qed.

Lemma main_with_encoder_empty input enc w :
  Json.size input = 0%nat ->
  output_file ∉ unwritable w ->
  main_with_encoder input enc w =
    Returns 0 (World (<[output_file := json_dump (JArray []) 2]> (fs w)) (unwritable w)
                     (stdout w ++ writing_line :: success_lines 0)
                     (stderr w) (llama_log w)).
Proof.
  intros Hsize Hrw. unfold main_with_encoder. rewrite Hsize. cbn [process_documents].
  unfold bind, ret, print_out, open_out, write_out, writing_line, success_lines.
  cbn [fs unwritable stdout stderr llama_log Json.size length].
  destruct (decide (output_file ∈ unwritable w)) as [|_]; [contradiction|].
  cbn [fs unwritable stdout stderr llama_log negb].
  rewrite lookup_insert_eq, insert_insert_eq, <- !app_assoc. reflexivity.
Qed.

Lemma main_with_encoder_rejects input enc w what :
  (0 < Json.size input)%nat ->
  Json.at_index input 0 = Throw what ->
  main_with_encoder input enc w = Throws what w.
Proof.
  intros Hsize Hthrow. unfold main_with_encoder.
  destruct (Json.size input) as [|n]; [lia|].
  cbn [process_documents]. unfold process_document. rewrite Hthrow. reflexivity.
Qed.

Lemma extract_fields_id_fits doc text id :
  extract_fields doc = Ok (text, id) -> Int.in_range id = true.
Proof.
  unfold extract_fields.
  destruct (Json.at_key doc "text") as [t| |]; try discriminate.
  destruct (Json.get_string t) as [s| |]; try discriminate.
  destruct (Json.at_key doc "id") as [d| |]; try discriminate.
  destruct d as [|b|z|z|f| | |]; cbn; try discriminate.
  - intros [= _ <-]. now destruct b.
  - intros [= _ <-]. apply wrap_is_int.
  - intros [= _ <-]. apply wrap_is_int.
  - destruct (Json.truncate f) as [t'|]; [|discriminate].
    destruct (Int.in_range t') eqn:Hr; [|discriminate]. now intros [= _ <-].
Qed.

Lemma output_entry_keys id text e :
  record_keys (output_entry id text e) = {["id"; "text"; "embedding"]}.
Proof.
  unfold record_keys, output_entry.
  rewrite !dom_insert_L, dom_singleton_L. set_solver.
Qed.

Lemma completed_run w w' :
  run_ending w 0 w' ->
  exists content input m c cs entries,
    fs w !! input_file = Some content /\
    json_parse content = Ok input /\
    llama_load_model_from_file model_path = Some m /\
    llama_init_from_model m ctx_params = Some c /\
    forallb is_inference_call cs = true /\
    forward_passes cs = Json.size input /\
    (output_file ∉ unwritable w) /\
    length entries = Json.size input /\
    fs w' = <[output_file := json_dump (JArray entries) 2]> (fs w) /\
    llama_log w' =
      llama_log w ++ construction_calls model_path m c ++ cs ++ destruction_calls m /\
    stderr w' = stderr w ++ construction_warnings m.
Proof.
  intros H. inversion H; subst.
  exists content, input, m, c, cs, entries. repeat split; assumption.
Qed.

(** X1.  The exit code of [main] is 0 or 1, and no exception leaves it. *)
Theorem main_exit_code w :
  match main w with
  | Returns code _ => code = 0 \/ code = 1
  | Throws _ _ => False
  | Undef => True
  end.
Proof.
  pose proof (main_ends w) as H.
  destruct (main w) as [code w' | |]; [| assumption | exact I].
  destruct H as (_ & []); auto.
Qed.

(** X2.  A run that does not exit with code 0 leaves every file as it was. *)
Theorem failed_run_touches_no_file w code w' :
  main w = Returns code w' -> code <> 0 -> fs w' = fs w.
Proof.
  intros Hmain Hcode. pose proof (main_ends w) as H. rewrite Hmain in H.
  destruct H as (_ & H). revert Hcode. destruct H; auto. congruence.
Qed.

(** X3.  A run that exits with code 0 has read and parsed the input file and
    replaced the content of the output file by the serialisation of an
    array with as many elements as the input value has; every other file,
    the input file among them, is as it was. *)
Theorem successful_run_writes_only_output w w' :
  main w = Returns 0 w' ->
  exists content input entries,
    fs w !! input_file = Some content /\
    json_parse content = Ok input /\
    length entries = Json.size input /\
    fs w' !! output_file = Some (json_dump (JArray entries) 2) /\
    forall path, path <> output_file -> fs w' !! path = fs w !! path.
Proof.
  intros Hmain. pose proof (main_ends w) as H. rewrite Hmain in H.
  destruct H as (_ & H).
  destruct (completed_run w w' H)
    as (content & input & m & c & cs & entries & Hin & Hparse & _ & _ & _ & _ & _
        & Hlen & Hfs & _).
  exists content, input, entries. repeat split; auto.
  - rewrite Hfs. apply lookup_insert_eq.
  - intros path Hpath. rewrite Hfs. now apply lookup_insert_ne.
Qed.

(** X4.  Without an input file the run stops at once: exit code 1, one line on
    each standard stream, no engine call, no file touched. *)
Theorem missing_input_file_stops_the_run w :
  fs w !! input_file = None ->
  exists w',
    main w = Returns 1 w' /\
    fs w' = fs w /\
    new_calls w w' = [] /\
    new_errors w w' = [cannot_read_line] /\
    printed w w' = ["Loading documents from " +:+ input_file +:+ "..."].
Proof.
  intros Hin.
  unfold main, try_catch, main_try, bind, print_out, open_in, print_err, ret.
  cbn. rewrite Hin. cbn. eexists. split; [reflexivity|].
  unfold new_calls, new_errors, printed. cbn.
  rewrite !drop_app_length, drop_all. auto.
Qed.

(** X5.  An input file that does not parse ends the run with exit code 1 and
    the message of the parse error, before the model is loaded. *)
Theorem unparsable_input_stops_the_run w content what :
  fs w !! input_file = Some content ->
  json_parse content = Throw what ->
  exists w',
    main w = Returns 1 w' /\
    fs w' = fs w /\
    new_calls w w' = [] /\
    new_errors w w' = [error_line what].
Proof.
  intros Hin Hparse.
  unfold main, try_catch, main_try, bind, print_out, open_in, print_err, ret, lift.
  cbn. rewrite Hin. cbn. rewrite Hparse. cbn. eexists. split; [reflexivity|].
  unfold new_calls, new_errors. cbn.
  rewrite drop_app_length, drop_all. auto.
Qed.

(** X6.  When the model cannot be loaded the constructor throws without having
    anything to free, and the run ends with exit code 1 after two engine
    calls, no document processed and no file touched. *)
Theorem unloadable_model_stops_the_run w content input :
  fs w !! input_file = Some content ->
  json_parse content = Ok input ->
  llama_load_model_from_file model_path = None ->
  exists w',
    main w = Returns 1 w' /\
    fs w' = fs w /\
    new_calls w w' = [Call_backend_load_all; Call_load_model model_path None] /\
    new_errors w w' = [error_line ("Failed to load model from: " +:+ model_path)] /\
    models_held (llama_log w') = models_held (llama_log w).
Proof.
  intros Hin Hparse Hload. unfold main, try_catch.
  rewrite (main_try_eq w content input Hin Hparse).
  unfold bind at 1. unfold BGEEncoder_new. rewrite Hload.
  unfold bind, call, throw, print_err, ret. cbn. eexists. split; [reflexivity|].
  unfold new_calls, new_errors. cbn.
  rewrite <- !app_assoc, !drop_app_length, models_held_app. cbn.
  repeat split; auto. lia.
Qed.

(** X7.  Whatever way a run ends, it holds as many model handles and as many
    context handles afterwards as before. *)
Theorem run_releases_every_handle w :
  match main w with
  | Returns _ w' =>
      models_held (llama_log w') = models_held (llama_log w) /\
      contexts_held (llama_log w') = contexts_held (llama_log w)
  | Throws _ _ => False
  | Undef => True
  end.
Proof.
  pose proof (main_ends w) as H.
  destruct (main w) as [code w' | |]; [| assumption | exact I].
  destruct H as (_ & H).
  destruct H as [ w' _ _ Hlog _ | content what w' _ _ _ Hlog _
                | content input w' _ _ _ _ Hlog _
                | content input m w' _ _ _ _ _ Hlog _
                | content input m c cs what w' _ _ _ _ Hinf _ Hlog _
                | content input m c cs w' _ _ _ _ Hinf _ _ _ Hlog _
                | content input m c cs entries w' _ _ _ _ Hinf _ _ _ _ Hlog _ ];
    rewrite Hlog; rewrite ?models_held_app, ?contexts_held_app;
    try (destruct (inference_calls_hold_nothing cs Hinf) as [-> ->]);
    cbn; split; lia.
Qed.

(** X8.  Once the encoder is constructed, every ending of the run destroys it:
    the calls of the run are those of the constructor, inference calls,
    and last the release of the context followed by that of the model. *)
Theorem encoder_is_destroyed_on_every_path w code w' content input m c :
  fs w !! input_file = Some content ->
  json_parse content = Ok input ->
  llama_load_model_from_file model_path = Some m ->
  llama_init_from_model m ctx_params = Some c ->
  main w = Returns code w' ->
  exists cs,
    forallb is_inference_call cs = true /\
    new_calls w w' = construction_calls model_path m c ++ cs ++ destruction_calls m.
Proof.
  intros Hin Hparse Hload Hinit Hmain.
  pose proof (main_ends w) as H. rewrite Hmain in H. destruct H as (_ & H).
  destruct H as [ w' Hin' _ _ _ | content' what w' Hin' Hparse' _ _ _
                | content' input' w' _ _ Hload' _ _ _
                | content' input' m' w' _ _ Hload' Hinit' _ _ _
                | content' input' m' c' cs what w' _ _ Hload' Hinit' Hinf _ Hlog _
                | content' input' m' c' cs w' _ _ Hload' Hinit' Hinf _ _ _ Hlog _
                | content' input' m' c' cs entries w' _ _ Hload' Hinit' Hinf _ _ _ _ Hlog _ ];
    try congruence;
    (assert (m' = m) as -> by congruence; assert (c' = c) as -> by congruence;
     exists cs; split; [assumption | now apply new_calls_app]).
Qed.

(** X9.  A successful run makes exactly one forward pass per element of the
    input. *)
Theorem one_forward_pass_per_document w w' content input :
  fs w !! input_file = Some content ->
  json_parse content = Ok input ->
  main w = Returns 0 w' ->
  forward_passes (new_calls w w') = Json.size input.
Proof.
  intros Hin Hparse Hmain.
  pose proof (main_ends w) as H. rewrite Hmain in H. destruct H as (_ & H).
  destruct (completed_run w w' H)
    as (content' & input' & m & c & cs & entries & Hin' & Hparse' & _ & _ & _ & Hpasses
        & _ & _ & _ & Hlog & _).
  assert (content' = content) as -> by congruence.
  assert (input' = input) as -> by congruence.
  rewrite (new_calls_app _ _ _ Hlog), !forward_passes_app, Hpasses. cbn. lia.
Qed.


(** X10.  In the array a successful run writes, the [id] of every record is an
    integer within the range of [int], whatever the [id] of the document
    was. *)
Theorem output_ids_fit_int w w' content docs :
  fs w !! input_file = Some content ->
  json_parse content = Ok (JArray docs) ->
  main w = Returns 0 w' ->
  exists entries,
    fs w' !! output_file = Some (json_dump (JArray entries) 2) /\
    Forall (fun entry =>
              exists z, Json.member entry "id" = Some (JInteger z) /\
                        Int.in_range z = true) entries.
Proof.
  intros Hin Hparse Hmain.
  destruct (main_success w w' content docs Hin Hparse Hmain)
    as (m & c & entries & _ & _ & _ & Hall & Hfs & _).
  exists entries. split; [rewrite Hfs; apply lookup_insert_eq|].
  clear -Hall. induction Hall as [|doc entry docs entries Hfor _ IH]; constructor; auto.
  destruct Hfor as (text & id & e & Hfields & -> & _).
  exists id. split; [reflexivity|]. eapply extract_fields_id_fits. eassumption.
Qed.

(** X11.  In the array a successful run writes, every record has exactly the
    keys [id], [text] and [embedding], and its [text] is the string the
    document has under [text]; no other key of a document is copied. *)
Theorem output_records_keep_the_text w w' content docs :
  fs w !! input_file = Some content ->
  json_parse content = Ok (JArray docs) ->
  main w = Returns 0 w' ->
  exists entries,
    fs w' !! output_file = Some (json_dump (JArray entries) 2) /\
    Forall2 (fun doc entry =>
               record_keys entry = {["id"; "text"; "embedding"]} /\
               is_Some (document_text doc) /\
               document_text entry = document_text doc) docs entries.
Proof.
  intros Hin Hparse Hmain.
  destruct (main_success w w' content docs Hin Hparse Hmain)
    as (m & c & entries & _ & _ & _ & Hall & Hfs & _).
  exists entries. split; [rewrite Hfs; apply lookup_insert_eq|].
  clear -Hall. induction Hall as [|doc entry docs entries Hfor _ IH]; constructor; auto.
  destruct Hfor as (text & id & e & Hfields & -> & _).
  destruct (extract_fields_ok doc text id Hfields) as (Htext & _).
  rewrite output_entry_keys, output_entry_text, Htext. eauto.
Qed.

(** X12.  The fields read from a document do not depend on its other keys. *)
Theorem other_keys_are_ignored (m : gmap string json) key v :
  key <> "text" -> key <> "id" ->
  extract_fields (JObject (<[key := v]> m)) = extract_fields (JObject m).
Proof.
  intros Htext Hid. unfold extract_fields. cbn [Json.at_key].
  now rewrite !lookup_insert_ne by congruence.
Qed.

(** X13.  The [id] of a well-formed document is read unchanged exactly when it
    fits [int]. *)
Theorem id_is_kept_iff_it_fits doc z text :
  document_id doc = Some z ->
  document_text doc = Some text ->
  (extract_fields doc = Ok (text, z) <-> Int.in_range z = true).
Proof.
  intros Hid Htext. rewrite (extract_fields_of_document doc z text Hid Htext). split.
  - intros [= Hwrap]. rewrite <- Hwrap. apply wrap_is_int.
  - intros Hrange. now rewrite wrap_in_range.
Qed.

(** X14.  An input value of size 0 (the empty array, but also null and the
    empty object) is an empty collection: with the encoder constructed and
    the output file writable, the run makes no forward pass, writes the
    empty array and exits with code 0. *)
Theorem empty_collection_writes_empty_array w content input m c :
  fs w !! input_file = Some content ->
  json_parse content = Ok input ->
  Json.size input = 0%nat ->
  llama_load_model_from_file model_path = Some m ->
  llama_init_from_model m ctx_params = Some c ->
  output_file ∉ unwritable w ->
  exists w',
    main w = Returns 0 w' /\
    fs w' = <[output_file := json_dump (JArray []) 2]> (fs w) /\
    new_calls w w' = construction_calls model_path m c ++ destruction_calls m.
Proof.
  intros Hin Hparse Hsize Hload Hinit Hrw. unfold main, try_catch.
  rewrite (main_try_eq w content input Hin Hparse).
  unfold bind at 1. rewrite (constructor_returns model_path m c _ Hload Hinit).
  cbn beta iota. rewrite scoped_encoder.
  rewrite main_with_encoder_empty; [| exact Hsize | exact Hrw].
  eexists. split; [reflexivity|]. split; [reflexivity|].
  apply new_calls_app. cbn [llama_log model]. now rewrite <- app_assoc.
Qed.

(** X15.  An input value that is not an array and has a positive size (a
    number, a string, a boolean, an object with members) is rejected at
    the first index: with the encoder constructed, the run ends with exit
    code 1 and the type error of the index access, after no inference call
    and no progress line. *)
Theorem non_array_input_is_rejected w content input m c :
  fs w !! input_file = Some content ->
  json_parse content = Ok input ->
  (0 < Json.size input)%nat ->
  (forall docs, input <> JArray docs) ->
  llama_load_model_from_file model_path = Some m ->
  llama_init_from_model m ctx_params = Some c ->
  exists w' what,
    main w = Returns 1 w' /\
    Json.at_index input 0 = Throw what /\
    fs w' = fs w /\
    new_errors w w' = construction_warnings m ++ [error_line what] /\
    new_calls w w' = construction_calls model_path m c ++ destruction_calls m /\
    List.filter is_progress_line (printed w w') = [].
Proof.
  intros Hin Hparse Hsize Hshape Hload Hinit.
  assert (Hthrow : exists what, Json.at_index input 0 = Throw what).
  { destruct input; cbn in *; eauto; [lia | now destruct (Hshape l)]. }
  destruct Hthrow as (what & Hthrow). unfold main, try_catch.
  rewrite (main_try_eq w content input Hin Hparse).
  unfold bind at 1. rewrite (constructor_returns model_path m c _ Hload Hinit).
  cbn beta iota. rewrite scoped_encoder.
  rewrite (main_with_encoder_rejects input _ _ what Hsize Hthrow).
  unfold bind, print_err, ret. cbn [fs unwritable stdout stderr llama_log model].
  eexists _, what. split; [reflexivity|]. split; [assumption|]. split; [reflexivity|].
  split; [apply new_errors_app; cbn [stderr]; now rewrite <- app_assoc|].
  split; [apply new_calls_app; cbn [llama_log]; now rewrite <- app_assoc|].
  erewrite printed_app by (cbn [stdout]; rewrite <- app_assoc; reflexivity).
  rewrite List.filter_app, opening_lines_not_progress, model_loaded_line_not_progress.
  reflexivity.
Qed.


(** X16.  When [encode] throws it has touched no file and printed nothing, and
    the message tells how far it got: the tokenization error after the dry
    run or after the second tokenizer call, the encoding error after the
    forward pass (the embeddings are then not asked for), the embeddings
    error after all four calls. *)
Theorem encode_failure_modes enc text w what w' :
  encode enc text w = Throws what w' ->
  same_files w w' /\ stdout w' = stdout w /\
  exists n batch,
    (what = "Failed to tokenize text" /\ new_calls w w' = [probe_call text]) \/
    (what = "Failed to tokenize text" /\
     new_calls w w' = [probe_call text; tokenize_call text n]) \/
    (what = "Failed to encode batch" /\
     new_calls w w' = [probe_call text; tokenize_call text n; Call_encode batch]) \/
    (what = "Failed to get embeddings" /\
     new_calls w w' =
       [probe_call text; tokenize_call text n; Call_encode batch;
        Call_get_embeddings_seq 0]).
Proof.
  intros H. destruct (encode_throws enc text w what w' H) as (Hfiles & Hout).
  split; [assumption|]. split; [assumption|].
  pose proof (encode_calls enc text w) as Hcalls. rewrite H in Hcalls.
  destruct Hcalls as (n & batch & Hcase). exists n, batch.
  destruct Hcase as [(-> & Hlog) | [(-> & Hlog) | [(-> & Hlog) | (-> & Hlog)]]];
    rewrite (new_calls_app _ _ _ Hlog); auto 6.
Qed.

(** X17.  A successful [encode] touches no file and prints nothing; it makes
    exactly four engine calls: the dry run, the tokenizer call with a
    buffer of [n] tokens, one forward pass over a batch of [n] tokens in a
    single sequence, and the request for the embeddings of sequence 0, with
    [n] positive. *)
Theorem successful_encode_calls enc text w e enc' w' :
  encode enc text w = Returns (e, enc') w' ->
  same_files w w' /\ stdout w' = stdout w /\
  exists n tokens,
    0 < n /\ Z.of_nat (length tokens) = n /\
    new_calls w w' =
      [probe_call text; tokenize_call text n;
       Call_encode (llama_batch_get_one tokens n); Call_get_embeddings_seq 0].
Proof.
  intros H. destruct (encode_returns enc text w e enc' w' H) as (_ & _ & _ & _ & Hfiles & Hout).
  split; [assumption|]. split; [assumption|].
  pose proof (encode_calls enc text w) as Hcalls. rewrite H in Hcalls.
  destruct Hcalls as (n & tokens & Hn & Hlen & Hlog & _). exists n, tokens.
  rewrite (new_calls_app _ _ _ Hlog). auto.
Qed.

Lemma warnings_are_not_errors m :
  Forall (fun line => is_error_line line = false) (construction_warnings m).
Proof.
  unfold construction_warnings, encoder_warning.
  destruct (negb (llama_n_embd m =? 768)); destruct (negb (llama_model_has_encoder m));
    repeat constructor.
Qed.

Lemma early_warnings_are_not_errors m :
  Forall (fun line => is_error_line line = false) (early_warnings m).
Proof.
  unfold early_warnings. destruct (negb (llama_n_embd m =? 768)); repeat constructor.
Qed.

(** X18.  The exit code and the standard error stream agree: a run that exits
    with code 1 ends its error output with a line that starts with
    [Error: ], after warnings only; a run that exits with code 0 writes
    no such line. *)
Theorem exit_code_matches_error_output w code w' :
  main w = Returns code w' ->
  (code = 0 -> Forall (fun line => is_error_line line = false) (new_errors w w')) /\
  (code = 1 ->
   exists warnings line,
     new_errors w w' = warnings ++ [line] /\
     is_error_line line = true /\
     Forall (fun line => is_error_line line = false) warnings).
Proof.
  intros Hmain. pose proof (main_ends w) as H. rewrite Hmain in H. destruct H as (_ & H).
  destruct H as [ w' _ _ _ Herr | content what w' _ _ _ _ Herr
                | content input w' _ _ _ _ _ Herr
                | content input m w' _ _ _ _ _ _ Herr
                | content input m c cs what w' _ _ _ _ _ _ _ Herr
                | content input m c cs w' _ _ _ _ _ _ _ _ _ Herr
                | content input m c cs entries w' _ _ _ _ _ _ _ _ _ _ Herr ];
    rewrite (new_errors_app _ _ _ Herr); (split; [try discriminate | try discriminate]);
    intros _.
  - exists [], cannot_read_line. auto.
  - exists [], (error_line what). auto.
  - eexists [], _. split; [reflexivity|]. auto.
  - eexists _, _. split; [reflexivity|]. split; [reflexivity|].
    apply early_warnings_are_not_errors.
  - eexists _, _. split; [reflexivity|]. split; [reflexivity|].
    apply warnings_are_not_errors.
  - eexists _, _. split; [reflexivity|]. split; [reflexivity|].
    apply warnings_are_not_errors.
  - apply warnings_are_not_errors.
Qed.

(** X19.  The last two lines a successful run prints are the summary, and the
    summary counts the documents of the input array. *)
Theorem summary_counts_the_documents w w' content docs :
  fs w !! input_file = Some content ->
  json_parse content = Ok (JArray docs) ->
  main w = Returns 0 w' ->
  exists before, printed w w' = before ++ success_lines (length docs).
Proof.
  intros Hin Hparse Hmain.
  destruct (main_success w w' content docs Hin Hparse Hmain)
    as (m & c & entries & _ & _ & _ & Hall & _ & _ & Hout).
  rewrite Hout, <- (Forall2_length _ _ _ Hall).
  exists (opening_lines (length docs) ++ [model_loaded_line (llama_n_embd m)] ++
          progress_lines (length docs) 0 (length docs) ++ [writing_line]).
  rewrite <- !app_assoc. reflexivity.
Qed.

End RunProperties.

(* ===================================================================== *)
(** ** The further properties on the concrete instance *)
(* ===================================================================== *)

(** Evaluates the run in the goal to its exit code and output file, and
    names the run [Hrun]. *)
Ltac observe_run Hrun seen :=
  match goal with
  | |- match ?r with _ => _ end =>
      let Hseen := fresh "Hseen" in
      assert (Hseen : exit_code_and_output r = Some seen) by (vm_compute; reflexivity);
      destruct r as [? ? | ? ? | ] eqn:Hrun;
      [| discriminate Hseen | discriminate Hseen];
      injection Hseen as -> _
  end.

(** [failed_run_touches_no_file] on the concrete instance. *)
Lemma failed_run_touches_no_file_witness :
  let JT := Demo.fixed_json (JArray Demo.truncated_documents) in
  let LL := Demo.engine 4 true in
  match @main JT LL (@Demo.start LL ∅) with
  | Returns code w' => code = 1 /\ fs w' = fs (@Demo.start LL ∅)
  | _ => False
  end.
Proof.
  intros JT LL. observe_run Hrun (1, @None string).
  split; [reflexivity|].
  apply (@failed_run_touches_no_file JT LL _ 1 _ Hrun). discriminate.
Defined.

(** [successful_run_writes_only_output] on the concrete instance. *)
Lemma successful_run_writes_only_output_witness :
  let JT := Demo.fixed_json (JArray Demo.two_documents) in
  let LL := Demo.engine 4 true in
  match @main JT LL (@Demo.start LL ∅) with
  | Returns code w' =>
      exists content input entries,
        fs (@Demo.start LL ∅) !! input_file = Some content /\
        @json_parse JT content = Ok input /\
        length entries = Json.size input /\
        fs w' !! output_file = Some (@json_dump JT (JArray entries) 2) /\
        forall path, path <> output_file -> fs w' !! path = fs (@Demo.start LL ∅) !! path
  | _ => False
  end.
Proof.
  intros JT LL. observe_run Hrun (0, Some "1:ab;-7:c").
  exact (@successful_run_writes_only_output JT LL _ _ Hrun).
Defined.

(** [missing_input_file_stops_the_run] on the concrete instance. *)
Lemma missing_input_file_stops_the_run_witness :
  let JT := Demo.fixed_json (JArray Demo.two_documents) in
  let LL := Demo.engine 4 true in
  exists w',
    @main JT LL (@Demo.bare LL) = Returns 1 w' /\
    fs w' = fs (@Demo.bare LL) /\
    new_calls (@Demo.bare LL) w' = [] /\
    new_errors (@Demo.bare LL) w' = [cannot_read_line] /\
    printed (@Demo.bare LL) w' = ["Loading documents from " +:+ input_file +:+ "..."].
Proof.
  intros JT LL. apply (@missing_input_file_stops_the_run JT LL (@Demo.bare LL)).
  reflexivity.
Defined.

(** [unparsable_input_stops_the_run] on the concrete instance. *)
Lemma unparsable_input_stops_the_run_witness :
  let JT := Demo.rejecting_json "syntax error" in
  let LL := Demo.engine 4 true in
  exists w',
    @main JT LL (@Demo.start LL ∅) = Returns 1 w' /\
    fs w' = fs (@Demo.start LL ∅) /\
    new_calls (@Demo.start LL ∅) w' = [] /\
    new_errors (@Demo.start LL ∅) w' = [error_line "syntax error"].
Proof.
  intros JT LL.
  apply (@unparsable_input_stops_the_run JT LL (@Demo.start LL ∅) "documents" "syntax error");
    [vm_compute; reflexivity | reflexivity].
Defined.

(** [unloadable_model_stops_the_run] on the concrete instance. *)
Lemma unloadable_model_stops_the_run_witness :
  let JT := Demo.fixed_json (JArray Demo.two_documents) in
  let LL := Demo.faulty_engine false 0 in
  exists w',
    @main JT LL (@Demo.start LL ∅) = Returns 1 w' /\
    fs w' = fs (@Demo.start LL ∅) /\
    new_calls (@Demo.start LL ∅) w' =
      [Call_backend_load_all; Call_load_model model_path None] /\
    new_errors (@Demo.start LL ∅) w' =
      [error_line ("Failed to load model from: " +:+ model_path)] /\
    models_held (llama_log w') = models_held (llama_log (@Demo.start LL ∅)).
Proof.
  intros JT LL.
  apply (@unloadable_model_stops_the_run JT LL (@Demo.start LL ∅) "documents"
           (JArray Demo.two_documents));
    [vm_compute; reflexivity | reflexivity | reflexivity].
Defined.

(** [encoder_is_destroyed_on_every_path] on the concrete instance. *)
Lemma encoder_is_destroyed_on_every_path_witness :
  let JT := Demo.fixed_json (JArray Demo.truncated_documents) in
  let LL := Demo.engine 4 true in
  match @main JT LL (@Demo.start LL ∅) with
  | Returns code w' =>
      code = 1 /\
      exists cs,
        forallb is_inference_call cs = true /\
        new_calls (@Demo.start LL ∅) w' =
          construction_calls model_path 4 0 ++ cs ++ destruction_calls 4
  | _ => False
  end.
Proof.
  intros JT LL. observe_run Hrun (1, @None string).
  split; [reflexivity|].
  apply (@encoder_is_destroyed_on_every_path JT LL _ 1 _ "documents"
           (JArray Demo.truncated_documents) 4 0);
    [vm_compute; reflexivity | reflexivity | reflexivity | reflexivity | exact Hrun].
Defined.

(** [one_forward_pass_per_document] on the concrete instance. *)
Lemma one_forward_pass_per_document_witness :
  let JT := Demo.fixed_json (JArray Demo.two_documents) in
  let LL := Demo.engine 4 true in
  match @main JT LL (@Demo.start LL ∅) with
  | Returns code w' => forward_passes (new_calls (@Demo.start LL ∅) w') = 2%nat
  | _ => False
  end.
Proof.
  intros JT LL. observe_run Hrun (0, Some "1:ab;-7:c").
  apply (@one_forward_pass_per_document JT LL _ _ "documents" (JArray Demo.two_documents));
    [vm_compute; reflexivity | reflexivity | exact Hrun].
Defined.

(** [output_ids_fit_int] on the concrete instance. *)
Lemma output_ids_fit_int_witness :
  let JT := Demo.fixed_json (JArray [Demo.wide_document]) in
  let LL := Demo.engine 4 true in
  match @main JT LL (@Demo.start LL ∅) with
  | Returns code w' =>
      exists entries,
        fs w' !! output_file = Some (@json_dump JT (JArray entries) 2) /\
        Forall (fun entry =>
                  exists z, Json.member entry "id" = Some (JInteger z) /\
                            Int.in_range z = true) entries
  | _ => False
  end.
Proof.
  intros JT LL. observe_run Hrun (0, Some "-2147483648:a").
  exact (@output_ids_fit_int JT LL (@Demo.start LL ∅) _ "documents" [Demo.wide_document]
           ltac:(vm_compute; reflexivity) eq_refl Hrun).
Defined.

(** [output_records_keep_the_text] on the concrete instance. *)
Lemma output_records_keep_the_text_witness :
  let JT := Demo.fixed_json (JArray Demo.two_documents) in
  let LL := Demo.engine 4 true in
  match @main JT LL (@Demo.start LL ∅) with
  | Returns code w' =>
      exists entries,
        fs w' !! output_file = Some (@json_dump JT (JArray entries) 2) /\
        Forall2 (fun doc entry =>
                   record_keys entry = {["id"; "text"; "embedding"]} /\
                   is_Some (document_text doc) /\
                   document_text entry = document_text doc)
                Demo.two_documents entries
  | _ => False
  end.
Proof.
  intros JT LL. observe_run Hrun (0, Some "1:ab;-7:c").
  exact (@output_records_keep_the_text JT LL (@Demo.start LL ∅) _ "documents"
           Demo.two_documents ltac:(vm_compute; reflexivity) eq_refl Hrun).
Defined.

(** [other_keys_are_ignored] on the concrete instance. *)
Lemma other_keys_are_ignored_witness :
  extract_fields
    (JObject (<["lang" := JString "en"]>
                (<["id" := JUnsigned 1]> {["text" := JString "ab"]}))) =
  extract_fields (JObject (<["id" := JUnsigned 1]> {["text" := JString "ab"]})).
Proof. apply other_keys_are_ignored; discriminate. Defined.

(** [id_is_kept_iff_it_fits] on the concrete instance. *)
Lemma id_is_kept_iff_it_fits_witness :
  extract_fields (Demo.document (JUnsigned 1) "ab") = Ok ("ab", 1) <->
  Int.in_range 1 = true.
Proof. apply id_is_kept_iff_it_fits; reflexivity. Defined.

(** [empty_collection_writes_empty_array] on the concrete instance. *)
Lemma empty_collection_writes_empty_array_witness :
  let JT := Demo.fixed_json JNull in
  let LL := Demo.engine 4 true in
  let w := @Demo.start LL ∅ in
  exists w',
    @main JT LL w = Returns 0 w' /\
    fs w' = <[output_file := @json_dump JT (JArray []) 2]> (fs w) /\
    new_calls w w' = construction_calls model_path 4 0 ++ destruction_calls 4.
Proof.
  intros JT LL w.
  apply (@empty_collection_writes_empty_array JT LL w "documents" JNull 4 0);
    [vm_compute; reflexivity | reflexivity | reflexivity | reflexivity | reflexivity |].
  apply not_elem_of_empty.
Defined.

(** [non_array_input_is_rejected] on the concrete instance. *)
Lemma non_array_input_is_rejected_witness :
  let JT := Demo.fixed_json (JString "ab") in
  let LL := Demo.engine 4 true in
  let w := @Demo.start LL ∅ in
  exists w' what,
    @main JT LL w = Returns 1 w' /\
    Json.at_index (JString "ab") 0 = Throw what /\
    fs w' = fs w /\
    new_errors w w' = @construction_warnings LL 4 ++ [error_line what] /\
    new_calls w w' = construction_calls model_path 4 0 ++ destruction_calls 4 /\
    List.filter is_progress_line (printed w w') = [].
Proof.
  intros JT LL w.
  apply (@non_array_input_is_rejected JT LL w "documents" (JString "ab") 4 0);
    [vm_compute; reflexivity | reflexivity | cbn; lia | discriminate
    | reflexivity | reflexivity].
Defined.

(** [encode_failure_modes] on the concrete instance. *)
Lemma encode_failure_modes_witness :
  let LL := Demo.faulty_engine true 1 in
  let enc := {| model := 4; ctx := 0; vocab := tt; n_embd := 4 |} : @BGEEncoder LL in
  let w := @Demo.start LL ∅ in
  match encode enc "ab" w with
  | Throws what w' =>
      what = "Failed to encode batch" /\
      same_files w w' /\ stdout w' = stdout w /\
      exists n batch,
        new_calls w w' = [probe_call "ab"; tokenize_call "ab" n; Call_encode batch]
  | _ => False
  end.
Proof.
  intros LL enc w.
  assert (Hseen : match encode enc "ab" w with
                  | Throws what _ => what = "Failed to encode batch"
                  | _ => False
                  end) by (vm_compute; reflexivity).
  destruct (encode enc "ab" w) as [? ? | what w' |] eqn:Hrun; try contradiction.
  split; [assumption|].
  destruct (@encode_failure_modes LL enc "ab" w what w' Hrun)
    as (Hfiles & Hout & n & batch & Hcase).
  split; [assumption|]. split; [assumption|]. exists n, batch.
  destruct Hcase as [(Hw & _) | [(Hw & _) | [(_ & Hcalls) | (Hw & _)]]];
    [subst what; discriminate Hw | subst what; discriminate Hw | exact Hcalls
    | subst what; discriminate Hw].
Defined.

(** [successful_encode_calls] on the concrete instance. *)
Lemma successful_encode_calls_witness :
  let LL := Demo.engine 4 true in
  let enc := {| model := 4; ctx := 0; vocab := tt; n_embd := 4 |} : @BGEEncoder LL in
  let w := @Demo.start LL ∅ in
  match encode enc "ab" w with
  | Returns (e, enc') w' =>
      same_files w w' /\ stdout w' = stdout w /\
      exists n tokens,
        0 < n /\ Z.of_nat (length tokens) = n /\
        new_calls w w' =
          [probe_call "ab"; tokenize_call "ab" n;
           Call_encode (llama_batch_get_one tokens n); Call_get_embeddings_seq 0]
  | _ => False
  end.
Proof.
  intros LL enc w.
  assert (Hseen : match encode enc "ab" w with
                  | Returns _ _ => True
                  | _ => False
                  end) by (vm_compute; exact I).
  destruct (encode enc "ab" w) as [[e enc'] w' | ? ? |] eqn:Hrun; try contradiction.
  exact (@successful_encode_calls LL enc "ab" w e enc' w' Hrun).
Defined.

(** [exit_code_matches_error_output] on the concrete instance. *)
Lemma exit_code_matches_error_output_witness :
  let JT := Demo.fixed_json (JArray Demo.truncated_documents) in
  let LL := Demo.engine 4 true in
  match @main JT LL (@Demo.start LL ∅) with
  | Returns code w' =>
      code = 1 /\
      exists warnings line,
        new_errors (@Demo.start LL ∅) w' = warnings ++ [line] /\
        is_error_line line = true /\
        Forall (fun line => is_error_line line = false) warnings
  | _ => False
  end.
Proof.
  intros JT LL. observe_run Hrun (1, @None string).
  split; [reflexivity|].
  exact (proj2 (@exit_code_matches_error_output JT LL _ 1 _ Hrun) eq_refl).
Defined.

(** [summary_counts_the_documents] on the concrete instance. *)
Lemma summary_counts_the_documents_witness :
  let JT := Demo.fixed_json (JArray Demo.two_documents) in
  let LL := Demo.engine 4 true in
  match @main JT LL (@Demo.start LL ∅) with
  | Returns code w' =>
      exists before, printed (@Demo.start LL ∅) w' = before ++ success_lines 2
  | _ => False
  end.
Proof.
  intros JT LL. observe_run Hrun (0, Some "1:ab;-7:c").
  apply (@summary_counts_the_documents JT LL _ _ "documents" Demo.two_documents);
    [vm_compute; reflexivity | reflexivity | exact Hrun].
Defined.
